(** * Catapult server: dispatcher service wiring, server main and hook primitives

  A shallow embedding of
  - the dispatcher service of namespace [catapult::sync] (block and
    transaction dispatcher assembly, the block chain sync handlers, the
    rollback service),
  - [catapult/server/ServerMain.cpp] (process entry point), and
  - the [SetOnce] / [Require] primitives exercised by [BasicServerHooksTests].

  Stateful code is written in a state-and-exception monad over an explicit
  world; calls into collaborators whose bodies live elsewhere are recorded in
  a trace, in program order. [ServerMain] is the one function with handlers,
  and there every outside call may throw; the dispatcher service has neither
  a throw nor a handler, and its collaborator calls are recorded as
  returning. *)

From Stdlib Require Import Ascii.
From stdpp Require Import gmap strings list pretty.

Open Scope string_scope.
Open Scope list_scope.
Open Scope Z_scope.

(** ** Effects: state plus C++ exceptions *)

Module Eff.

(** Outcome of a C++ call: a normal return or a thrown exception. *)
Inductive Res (A : Type) : Type :=
| Ok (a : A)
| Throw (what : string).
Arguments Ok {A} a.
Arguments Throw {A} what.

Definition M (S A : Type) : Type := S -> Res A * S.

Definition ret {S A} (a : A) : M S A := fun s => (Ok a, s).

Definition bind {S A B} (m : M S A) (k : A -> M S B) : M S B :=
  fun s =>
    match m s with
    | (Ok a, s') => k a s'
    | (Throw e, s') => (Throw e, s')
    end.

Definition throw {S A} (what : string) : M S A := fun s => (Throw what, s).

(** [try { body } catch (...) { handler }] *)
Definition try_catch {S A} (body : M S A) (handler : string -> M S A) : M S A :=
  fun s =>
    match body s with
    | (Ok a, s') => (Ok a, s')
    | (Throw e, s') => handler e s'
    end.

Definition get {S} : M S S := fun s => (Ok s, s).
Definition modify {S} (f : S -> S) : M S unit := fun s => (Ok tt, f s).

Definition is_ok {A} (r : Res A) : bool :=
  match r with Ok _ => true | Throw _ => false end.

(** A range-for over a container: the body runs on each element in order and
    the loop is left by the first exception. *)
Fixpoint for_each {S A} (body : A -> M S unit) (range : list A) : M S unit :=
  match range with
  | [] => ret tt
  | x :: rest => bind (body x) (fun _ => for_each body rest)
  end.

End Eff.

Import Eff.

(** The monad is used through stdpp's [x ← m; k] and [m ;; k] notations. *)
#[global] Instance eff_ret {S} : MRet (M S) := fun A a => Eff.ret a.
#[global] Instance eff_bind {S} : MBind (M S) := fun A B k m => Eff.bind m k.

(** ** Paths and primitive value types *)

(** [boost::filesystem::path] on a POSIX host: the path is its pathname
    string. [path(s)] holds [s]; [p / e] and [p /= e] append [e], putting one
    separator in between unless [e] is empty, [e] begins with a separator, or
    [p] is empty or already ends with one; [generic_string] is the pathname. *)
Module fs.

Definition path : Type := string.

Definition of_string (s : string) : path := s.

Definition begins_with_separator (s : string) : bool :=
  match s with
  | String c _ => Ascii.eqb c "/"%char
  | EmptyString => false
  end.

Fixpoint ends_with_separator (s : string) : bool :=
  match s with
  | EmptyString => false
  | String c EmptyString => Ascii.eqb c "/"%char
  | String _ rest => ends_with_separator rest
  end.

Definition is_empty (s : string) : bool :=
  match s with
  | EmptyString => true
  | String _ _ => false
  end.

Definition append (p : path) (e : string) : path :=
  if is_empty e then p
  else if begins_with_separator e || is_empty p || ends_with_separator p
       then p +:+ e
       else p +:+ "/" +:+ e.

Definition generic_string (p : path) : string := p.

(** A path element that [append] separates on both sides: not empty and
    neither beginning nor ending with a separator. *)
Definition is_plain (e : string) : bool :=
  negb (is_empty e) && negb (begins_with_separator e) && negb (ends_with_separator e).

End fs.

Notation "p '/p' e" := (fs.append p e) (at level 40, left associativity).

#[global] Arguments fs.append : simpl never.

(** [utils::TimeSpan]: a duration in unsigned 64-bit milliseconds. *)
Record TimeSpan := FromMilliseconds { millis : N }.

(** [Timestamp]: a wrapped unsigned 64-bit millisecond count. *)
Record Timestamp := MkTimestamp { unwrap : N }.

(** [std::to_string] on an unsigned value: decimal digits. *)
Definition to_string (n : N) : string := pretty n.

(** ** Configuration records (the fields read by the dispatcher service and the server main) *)

Module config.

Record NodeConfiguration := {
  BlockDisruptorSize : N;
  TransactionDisruptorSize : N;
  BlockElementTraceInterval : N;
  TransactionElementTraceInterval : N;
  ShouldAbortWhenDispatcherIsFull : bool;
  ShouldAuditDispatcherInputs : bool;
  ShouldPrecomputeTransactionAddresses : bool;
  ShortLivedCacheBlockDuration : TimeSpan;
  ShortLivedCacheTransactionDuration : TimeSpan;
  MaxBlocksPerSyncAttempt : N
}.

Record BlockChainConfiguration := {
  MaxBlockFutureTime : TimeSpan;
  MaxRollbackBlocks : N
}.

Record UserConfiguration := {
  BootKey : string;
  DataDirectory : string
}.

Inductive LogLevel := trace_level | debug | info | warning | error | fatal.

Record BasicLoggerConfiguration := {
  Level : LogLevel;
  ComponentLevels : list (string * LogLevel)
}.

Record LoggingConfiguration := {
  Console : BasicLoggerConfiguration;
  File : BasicLoggerConfiguration
}.

Record LocalNodeConfiguration := {
  BlockChain : BlockChainConfiguration;
  Node : NodeConfiguration;
  Logging : LoggingConfiguration;
  User : UserConfiguration
}.

End config.

(** ** Server main ([catapult/server/ServerMain.cpp]) *)

Module server.
Import config.

(** [crypto::KeyPair], reduced to its public key. *)
Record KeyPair := { publicKey : string }.

(** [utils::LogFilter]: a default level and per-component overrides, in the
    order [setLevel] was called. *)
Record LogFilter := {
  filter_level : LogLevel;
  filter_components : list (string * LogLevel)
}.

Definition LogFilter_new (level : LogLevel) : LogFilter :=
  {| filter_level := level; filter_components := [] |}.

Definition setLevel (f : LogFilter) (name : string) (level : LogLevel) : LogFilter :=
  {| filter_level := filter_level f;
     filter_components := (filter_components f ++ [(name, level)])%list |}.

(** Every call that leaves [ServerMain.cpp] is recorded; a call that can throw
    records whether it returned. *)
Inductive Event :=
| SetThreadName (name : string)
| WriteVersionInformation
| Cout (text : string) (streamed : fs.path)
| LoadFromPath (resourcesPath : fs.path) (returned : bool)
| ValidateConfiguration (returned : bool)
| AddConsoleLogger (filter : LogFilter) (returned : bool)
| AddFileLogger (filter : LogFilter) (returned : bool)
| TryLock (lockFile : string) (returned : bool)
| Log (level : LogLevel) (text : string)
| LogPath (level : LogLevel) (text : string) (streamed : fs.path)
| LogKey (level : LogLevel) (text : string) (streamed : string)
| LogUnhandledException (level : LogLevel) (action : string)
| CerrUnhandledException (action : string)
| KeyPairFromString (returned : bool)
| CreateLocalNode (returned : bool)
| WaitForTerminationSignal (returned : bool)
| DestroyLocalNode.

Definition Trace : Type := list Event.

(** The environment of the process: what each outside call does when made. *)
Record Host := {
  host_LoadFromPath : fs.path -> Res LocalNodeConfiguration;
  host_ValidateConfiguration : LocalNodeConfiguration -> Res unit;
  host_addConsoleLogger : LogFilter -> Res unit;
  host_addFileLogger : LogFilter -> Res unit;
  host_try_lock : string -> Res bool;
  host_KeyPairFromString : string -> Res KeyPair;
  host_WaitForTerminationSignal : Res unit
}.

(** [std::unique_ptr<LocalNode>] as returned by the node factory. *)
Definition CreateLocalNodeFunc : Type := LocalNodeConfiguration -> KeyPair -> Res unit.

Definition emit (e : Event) : M Trace unit := Eff.modify (fun t => (t ++ [e])%list).

Definition call {A} (e : bool -> Event) (r : Res A) : M Trace A :=
  fun t => (r, (t ++ [e (Eff.is_ok r)])%list).

(** [argv[1]]; the empty string stands for a read past the supplied entries. *)
Definition GetResourcesPath (argc : Z) (argv : list string) : fs.path :=
  fs.of_string (if bool_decide (argc > 1) then default "" (argv !! 1%nat) else "..") /p "resources".

Definition LoadConfiguration (h : Host) (argc : Z) (argv : list string)
  : M Trace LocalNodeConfiguration :=
  let resourcesPath := GetResourcesPath argc argv in
  emit (Cout "loading resources from " resourcesPath) ;;
  call (LoadFromPath resourcesPath) (host_LoadFromPath h resourcesPath).

Definition CreateLogFilter (config : BasicLoggerConfiguration) : LogFilter :=
  fold_left (fun pFilter pair => setLevel pFilter pair.1 pair.2)
            (ComponentLevels config) (LogFilter_new (Level config)).

Definition SetupLogging (h : Host) (config : LoggingConfiguration) : M Trace unit :=
  let console := CreateLogFilter (Console config) in
  call (AddConsoleLogger console) (host_addConsoleLogger h console) ;;
  let file := CreateLogFilter (File config) in
  call (AddFileLogger file) (host_addFileLogger h file).

Definition Run (h : Host) (config : LocalNodeConfiguration)
    (createLocalNode : CreateLocalNodeFunc) : M Trace unit :=
  keyPair ← call KeyPairFromString (host_KeyPairFromString h (BootKey (User config)));
  emit (LogKey info "booting local node with public key " (publicKey keyPair)) ;;
  call CreateLocalNode (createLocalNode config keyPair) ;;
  (* the node is owned by a local [unique_ptr]: it is destroyed when the wait throws *)
  Eff.try_catch
    (call WaitForTerminationSignal (host_WaitForTerminationSignal h))
    (fun e => emit DestroyLocalNode ;; Eff.throw e) ;;
  emit (Log info "shutting down local node") ;;
  emit DestroyLocalNode.

Definition ServerMain (h : Host) (argc : Z) (argv : list string)
    (createLocalNode : CreateLocalNodeFunc) : M Trace Z :=
  emit (SetThreadName "Server Main") ;;
  emit WriteVersionInformation ;;
  Eff.try_catch
    ((* 1. load and validate the configuration *)
     config ← LoadConfiguration h argc argv;
     call ValidateConfiguration (host_ValidateConfiguration h config) ;;
     (* 2. initialize logging *)
     SetupLogging h (Logging config) ;;
     (* 3. check instance *)
     let lockFilePath := fs.of_string (DataDirectory (User config)) /p "file.lock" in
     locked ← call (TryLock (fs.generic_string lockFilePath))
                   (host_try_lock h (fs.generic_string lockFilePath));
     if negb locked then
       emit (LogPath fatal "could not acquire instance lock " lockFilePath) ;;
       mret (-3)
     else
       (* 4. run the server *)
       Eff.try_catch
         (Run h config createLocalNode ;; mret 0)
         (fun _ => emit (LogUnhandledException fatal "running local node") ;; mret (-2)))
    (fun _ => emit (CerrUnhandledException "loading configuration") ;; mret (-1)).

(** The instance lock file of a configuration, as handed to [io::FileLock]. *)
Definition lockFile (config : LocalNodeConfiguration) : string :=
  fs.generic_string (fs.of_string (DataDirectory (User config)) /p "file.lock").

(** Logging setup and instance-lock events. *)
Definition needs_config (e : Event) : bool :=
  match e with
  | AddConsoleLogger _ _ | AddFileLogger _ _ | TryLock _ _ => true
  | _ => false
  end.

(** Events of [Run]: the node is being booted, run or shut down. *)
Definition runs_node (e : Event) : bool :=
  match e with
  | KeyPairFromString _ | CreateLocalNode _ | WaitForTerminationSignal _ | DestroyLocalNode => true
  | _ => false
  end.

(** Scan of a trace: every logging setup or lock event comes after a load
    that returned and a validation that returned. *)
Fixpoint only_after_config (loaded validated : bool) (t : Trace) : bool :=
  match t with
  | [] => true
  | e :: t' =>
      match e with
      | LoadFromPath _ ok => only_after_config ok false t'
      | ValidateConfiguration ok => only_after_config loaded (loaded && ok) t'
      | _ => (negb (needs_config e) || (loaded && validated))
             && only_after_config loaded validated t'
      end
  end.

(** Outcomes of the steps of [ServerMain], as conditions on the host. *)
Definition config_loaded (h : Host) (argc : Z) (argv : list string)
    (config : LocalNodeConfiguration) : Prop :=
  host_LoadFromPath h (GetResourcesPath argc argv) = Ok config /\
  host_ValidateConfiguration h config = Ok tt.

Definition logging_set_up (h : Host) (config : LocalNodeConfiguration) : Prop :=
  host_addConsoleLogger h (CreateLogFilter (Console (Logging config))) = Ok tt /\
  host_addFileLogger h (CreateLogFilter (File (Logging config))) = Ok tt.

Definition Run_throws (h : Host) (config : LocalNodeConfiguration)
    (createLocalNode : CreateLocalNodeFunc) : Prop :=
  exists what, (Run h config createLocalNode []).1 = Throw what.

Definition Run_completes (h : Host) (config : LocalNodeConfiguration)
    (createLocalNode : CreateLocalNodeFunc) : Prop :=
  (Run h config createLocalNode []).1 = Ok tt.

(** Sample inputs. *)
Definition sample_config : LocalNodeConfiguration :=
  {| BlockChain := {| MaxBlockFutureTime := FromMilliseconds 10000; MaxRollbackBlocks := 40 |};
     Node := {| BlockDisruptorSize := 4; TransactionDisruptorSize := 8;
                BlockElementTraceInterval := 1; TransactionElementTraceInterval := 10;
                ShouldAbortWhenDispatcherIsFull := true;
                ShouldAuditDispatcherInputs := true;
                ShouldPrecomputeTransactionAddresses := false;
                ShortLivedCacheBlockDuration := FromMilliseconds 100;
                ShortLivedCacheTransactionDuration := FromMilliseconds 200;
                MaxBlocksPerSyncAttempt := 30 |};
     Logging := {| Console := {| Level := info; ComponentLevels := [("net", debug)] |};
                   File := {| Level := debug; ComponentLevels := [] |} |};
     User := {| BootKey := "B00T"; DataDirectory := "../data" |} |}.

Definition sample_host (load : Res LocalNodeConfiguration) (validate : Res unit)
    (lock : Res bool) : Host :=
  {| host_LoadFromPath := fun _ => load;
     host_ValidateConfiguration := fun _ => validate;
     host_addConsoleLogger := fun _ => Ok tt;
     host_addFileLogger := fun _ => Ok tt;
     host_try_lock := fun _ => lock;
     host_KeyPairFromString := fun key => Ok {| publicKey := key |};
     host_WaitForTerminationSignal := Ok tt |}.

(** *** Vocabulary of the further properties *)

(** The exit code as a decision table over the outcomes of the outside calls,
    in the order [ServerMain] makes them. *)
Definition exit_code_table (h : Host) (argc : Z) (argv : list string)
    (createLocalNode : CreateLocalNodeFunc) : Z :=
  match host_LoadFromPath h (GetResourcesPath argc argv) with
  | Throw _ => -1
  | Ok config =>
      match host_ValidateConfiguration h config,
            host_addConsoleLogger h (CreateLogFilter (Console (Logging config))),
            host_addFileLogger h (CreateLogFilter (File (Logging config))),
            host_try_lock h (lockFile config) with
      | Ok _, Ok _, Ok _, Ok true =>
          match (Run h config createLocalNode []).1 with
          | Ok _ => 0
          | Throw _ => -2
          end
      | Ok _, Ok _, Ok _, Ok false => -3
      | _, _, _, _ => -1
      end
  end.

Definition is_load (e : Event) : bool :=
  match e with LoadFromPath _ _ => true | _ => false end.

Definition is_lock_attempt (e : Event) : bool :=
  match e with TryLock _ _ => true | _ => false end.

Definition is_created (e : Event) : bool :=
  match e with CreateLocalNode true => true | _ => false end.

Definition is_destroyed (e : Event) : bool :=
  match e with DestroyLocalNode => true | _ => false end.

Definition is_factory_call (e : Event) : bool :=
  match e with CreateLocalNode _ => true | _ => false end.

Definition count (p : Event -> bool) (t : Trace) : nat := length (List.filter p t).

(** Scan of a trace: every [target] event comes after some [guard] event. *)
Fixpoint preceded_by (guard target : Event -> bool) (seen : bool) (t : Trace) : bool :=
  match t with
  | [] => true
  | e :: t' => (negb (target e) || seen) && preceded_by guard target (seen || guard e) t'
  end.

(** A host on which every call returns, except that the boot key is rejected. *)
Definition sample_host_bad_key : Host :=
  {| host_LoadFromPath := fun _ => Ok sample_config;
     host_ValidateConfiguration := fun _ => Ok tt;
     host_addConsoleLogger := fun _ => Ok tt;
     host_addFileLogger := fun _ => Ok tt;
     host_try_lock := fun _ => Ok true;
     host_KeyPairFromString := fun _ => Throw "invalid boot key";
     host_WaitForTerminationSignal := Ok tt |}.

(** A host on which the file logger cannot be added. *)
Definition sample_host_bad_logger : Host :=
  {| host_LoadFromPath := fun _ => Ok sample_config;
     host_ValidateConfiguration := fun _ => Ok tt;
     host_addConsoleLogger := fun _ => Ok tt;
     host_addFileLogger := fun _ => Throw "cannot open log file";
     host_try_lock := fun _ => Ok true;
     host_KeyPairFromString := fun key => Ok {| publicKey := key |};
     host_WaitForTerminationSignal := Ok tt |}.

End server.

(** ** Write-once hook primitives ([catapult/extensions/BasicServerHooks.h]) *)

Module extensions.

Definition catapult_invalid_argument : string := "catapult_invalid_argument".

(** Modelled from the spec: [SetOnce] and [Require] are declared in
    BasicServerHooks.h, which is missing (its tests are present); the hook
    registry is write-once, read-many, and BasicServerHooksTests pins the
    behaviour down. A [std::function] is an optional callable; the state of
    [SetOnce] is the destination it is handed by reference. *)
Definition SetOnce {F : Type} (source : option F) : M (option F) unit :=
  dest ← Eff.get;
  match dest with
  | Some _ => Eff.throw catapult_invalid_argument
  | None => Eff.modify (fun _ => source)
  end.

(** Modelled from the spec: [Require] of BasicServerHooks.h (see [SetOnce]). *)
Definition Require {F : Type} (func : option F) : Res F :=
  match func with
  | Some f => Ok f
  | None => Throw catapult_invalid_argument
  end.

(** [using BasicFunc = supplier<int>] of the tests. *)
Definition BasicFunc : Type := unit -> Z.

End extensions.

(** ** Dispatcher service (namespace [catapult::sync]) *)

Module sync.
Import config.

(** *** Rollback statistics *)

Inductive RollbackResult := Committed | Ignored.
Inductive RollbackCounterType := All | Recent.

(** Modelled from the spec: class [RollbackInfo]; RollbackInfo.h is included
    by the dispatcher service and its body is missing. Per result a sequence
    of (timestamp, delta) records, a pending in-flight count, the window of
    the recent counters and the time source. *)
Record RollbackInfo := {
  ri_timeSupplier : nat -> Timestamp;
  ri_recentStatsTimeSpan : TimeSpan;
  ri_pending : N;
  ri_committed : list (Timestamp * N);
  ri_ignored : list (Timestamp * N)
}.

(** Modelled from the spec: the constructor [RollbackInfo(timeSupplier, recentStatsTimeSpan)]. *)
Definition RollbackInfo_new (timeSupplier : nat -> Timestamp) (recentStatsTimeSpan : TimeSpan)
  : RollbackInfo :=
  {| ri_timeSupplier := timeSupplier;
     ri_recentStatsTimeSpan := recentStatsTimeSpan;
     ri_pending := 0;
     ri_committed := [];
     ri_ignored := [] |}.

(** Modelled from the spec: the pending in-flight counter is incremented. *)
Definition RollbackInfo_increment (ri : RollbackInfo) : RollbackInfo :=
  {| ri_timeSupplier := ri_timeSupplier ri;
     ri_recentStatsTimeSpan := ri_recentStatsTimeSpan ri;
     ri_pending := (ri_pending ri + 1)%N;
     ri_committed := ri_committed ri;
     ri_ignored := ri_ignored ri |}.

(** Modelled from the spec: on [reset()] the pending count is discarded
    (4.7). A discarded rollback is counted as Ignored (4.5, 7) and the
    counters are written by undo, reset and save only (5), so the discarded
    count is folded into Ignored, stamped with the current time. *)
Definition RollbackInfo_reset (now : Timestamp) (ri : RollbackInfo) : RollbackInfo :=
  {| ri_timeSupplier := ri_timeSupplier ri;
     ri_recentStatsTimeSpan := ri_recentStatsTimeSpan ri;
     ri_pending := 0;
     ri_committed := ri_committed ri;
     ri_ignored := (ri_ignored ri ++ [(now, ri_pending ri)])%list |}.

(** Modelled from the spec: on [save()] the pending count is folded into
    Committed, stamped with the current time. *)
Definition RollbackInfo_save (now : Timestamp) (ri : RollbackInfo) : RollbackInfo :=
  {| ri_timeSupplier := ri_timeSupplier ri;
     ri_recentStatsTimeSpan := ri_recentStatsTimeSpan ri;
     ri_pending := 0;
     ri_committed := (ri_committed ri ++ [(now, ri_pending ri)])%list;
     ri_ignored := ri_ignored ri |}.

Definition ri_events (result : RollbackResult) (ri : RollbackInfo) : list (Timestamp * N) :=
  match result with
  | Committed => ri_committed ri
  | Ignored => ri_ignored ri
  end.

(** An event is recent at [now] unless it is older than the window. *)
Definition is_recent (window : TimeSpan) (now : Timestamp) (event : Timestamp * N) : bool :=
  (unwrap now <=? unwrap event.1 + millis window)%N.

Definition recent_events (window : TimeSpan) (now : Timestamp) (events : list (Timestamp * N))
  : list (Timestamp * N) :=
  filter (fun event => is_recent window now event = true) events.

Definition sum_deltas (events : list (Timestamp * N)) : N :=
  foldr (fun event acc => (event.2 + acc)%N) 0%N events.

(** Modelled from the spec: a 64-bit counter per result and counter type;
    [Recent] excludes, on query, all events older than the window. *)
Definition RollbackInfo_counter (now : Timestamp) (result : RollbackResult)
    (counterType : RollbackCounterType) (ri : RollbackInfo) : N :=
  let events := ri_events result ri in
  match counterType with
  | All => sum_deltas events mod 2 ^ 64
  | Recent => sum_deltas (recent_events (ri_recentStatsTimeSpan ri) now events) mod 2 ^ 64
  end%N.

(** *** Model types *)

(** [model::Block]: the height is read by the undo handler, the difficulty by
    the difficulty check. *)
Record Block := { Height : N; Difficulty : N }.

Record BlockElement := { Block_ : Block; EntityHash : N }.

Inductive InputSource := Unknown | Local | Remote_Pull | Remote_Push.

(** Collaborators the dispatcher service includes but does not define. *)
Class Collaborators := {
  CatapultCache : Type;
  BlockDifficultyCache : Type;
  sub_BlockDifficultyCache : CatapultCache -> BlockDifficultyCache;
  ObserverState : Type;
  TransactionInfo : Type;
  CacheChanges : Type;
  (** [chain::CheckDifficulties]: the number of blocks it reports as matching *)
  CheckDifficulties : BlockDifficultyCache -> list Block -> BlockChainConfiguration -> N;
  CalculateFullRollbackDuration : BlockChainConfiguration -> TimeSpan;
  (** The file system behind [boost::filesystem]: its state, the
      [is_directory] query and [create_directories], which may throw and
      leaves the state it reached. Documented of [create_directories]: when it
      returns, the path is a directory; it creates and never removes. *)
  Disk : Type;
  fs_is_directory : fs.path -> Disk -> bool;
  fs_create_directories : fs.path -> Disk -> Res unit * Disk;
  fs_create_directories_post : forall p disk disk',
    fs_create_directories p disk = (Ok tt, disk') -> fs_is_directory p disk' = true;
  fs_create_directories_keeps : forall p q disk outcome disk',
    fs_create_directories p disk = (outcome, disk') ->
    fs_is_directory q disk = true -> fs_is_directory q disk' = true
}.

(** [extensions::ServiceState], the immutable part: configuration and time supplier.
    The [n]-th call of the supplier returns [state_timeSupplier n]. *)
Record ServiceState := {
  state_config : LocalNodeConfiguration;
  state_timeSupplier : nat -> Timestamp
}.

Section DispatcherService.
Context `{Collaborators}.

(** Modelled from the spec: the chain score types of LocalNodeChainScore.h;
    a score is an integer and a score delta is the signed change of the
    cumulative score. *)
Definition ChainScore : Type := Z.

(** [subscribers::StateChangeInfo] *)
Record StateChangeInfo := {
  CacheChanges_ : CacheChanges;
  ScoreDelta : ChainScore
}.

(** Effects, in program order: mutations of the local score and of the
    rollback info, and calls into collaborators. *)
Inductive Effect :=
| localScore_add (delta : ChainScore)
| rollbackInfo_increment
| rollbackInfo_reset
| rollbackInfo_save
| log_rolling_back_block (height : N)
| log_enabling_auditing (auditPath : fs.path)
| RollbackBlock (blockElement : BlockElement) (state : ObserverState)
| notifyScoreChange (score : ChainScore)
| notifyStateChange (changeInfo : StateChangeInfo)
| newTransactionsSink (transactionInfos : list TransactionInfo)
| utUpdater_update (transactionInfos : list TransactionInfo)
| pushIsolatedPool (name : string)
| pushServiceGroup (name : string)
| serviceGroup_registerService (dispatcherName : string)
| hooks_addTransactionsChangeHandler
| hooks_setBlockRangeConsumerFactory
| hooks_setCompletionAwareBlockRangeConsumerFactory
| hooks_setTransactionRangeConsumerFactory
| tasks_push_back (taskName : string).

(** The mutable world the service works on: the clock (number of readings
    taken), the directories on disk, the local chain score
    ([state.score()]), the node's rollback info and the effects so far. *)
Record World := {
  clockReads : nat;
  directories : Disk;
  localScore : ChainScore;
  rollbackInfo : RollbackInfo;
  effects : list Effect
}.

Definition set_clockReads (f : nat -> nat) (w : World) : World :=
  {| clockReads := f (clockReads w); directories := directories w;
     localScore := localScore w; rollbackInfo := rollbackInfo w; effects := effects w |}.

Definition set_directories (f : Disk -> Disk) (w : World) : World :=
  {| clockReads := clockReads w; directories := f (directories w);
     localScore := localScore w; rollbackInfo := rollbackInfo w; effects := effects w |}.

Definition set_localScore (f : ChainScore -> ChainScore) (w : World) : World :=
  {| clockReads := clockReads w; directories := directories w;
     localScore := f (localScore w); rollbackInfo := rollbackInfo w; effects := effects w |}.

Definition set_rollbackInfo (f : RollbackInfo -> RollbackInfo) (w : World) : World :=
  {| clockReads := clockReads w; directories := directories w;
     localScore := localScore w; rollbackInfo := f (rollbackInfo w); effects := effects w |}.

Definition set_effects (f : list Effect -> list Effect) (w : World) : World :=
  {| clockReads := clockReads w; directories := directories w;
     localScore := localScore w; rollbackInfo := rollbackInfo w; effects := f (effects w) |}.

Definition effect (e : Effect) : M World unit :=
  Eff.modify (set_effects (fun es => (es ++ [e])%list)).

(** One call of a time supplier. *)
Definition now (timeSupplier : nat -> Timestamp) : M World Timestamp :=
  fun w => (Ok (timeSupplier (clockReads w)), set_clockReads S w).

(** Member calls on the node's rollback info. *)
Definition rollbackInfo_do_increment : M World unit :=
  effect rollbackInfo_increment ;;
  Eff.modify (set_rollbackInfo RollbackInfo_increment).

Definition rollbackInfo_do_reset : M World unit :=
  effect rollbackInfo_reset ;;
  w ← Eff.get;
  timestamp ← now (ri_timeSupplier (rollbackInfo w));
  Eff.modify (set_rollbackInfo (RollbackInfo_reset timestamp)).

Definition rollbackInfo_do_save : M World unit :=
  effect rollbackInfo_save ;;
  w ← Eff.get;
  timestamp ← now (ri_timeSupplier (rollbackInfo w));
  Eff.modify (set_rollbackInfo (RollbackInfo_save timestamp)).

(** *** Dispatcher descriptions *)

Record ConsumerDispatcherOptions := {
  DispatcherName : string;
  DisruptorSize : N;
  ElementTraceInterval : N;
  ShouldThrowIfFull : bool
}.

(** The two-argument constructor; both remaining members are assigned by
    every caller below. *)
Definition ConsumerDispatcherOptions_new (name : string) (size : N) : ConsumerDispatcherOptions :=
  {| DispatcherName := name; DisruptorSize := size;
     ElementTraceInterval := 1; ShouldThrowIfFull := true |}.

Definition set_ElementTraceInterval (v : N) (o : ConsumerDispatcherOptions) :=
  {| DispatcherName := DispatcherName o; DisruptorSize := DisruptorSize o;
     ElementTraceInterval := v; ShouldThrowIfFull := ShouldThrowIfFull o |}.

Definition set_ShouldThrowIfFull (v : bool) (o : ConsumerDispatcherOptions) :=
  {| DispatcherName := DispatcherName o; DisruptorSize := DisruptorSize o;
     ElementTraceInterval := ElementTraceInterval o; ShouldThrowIfFull := v |}.

(** [extensions::CreateHashCheckOptions(cacheDuration, nodeConfig)], kept as its arguments. *)
Record HashCheckOptions := CreateHashCheckOptions {
  CacheDuration : TimeSpan;
  hashCheck_nodeConfig : NodeConfiguration
}.

(** [BlockChainSyncHandlers]: the function-valued members; the processor and
    the transactions-change hook are built entirely by collaborators. *)
Inductive ProcessorFunc := CreateSyncProcessor (blockChainConfig : BlockChainConfiguration).
Inductive TransactionsChangeFunc := hooks_transactionsChangeHandler.

Record BlockChainSyncHandlers := {
  DifficultyChecker : list Block -> CatapultCache -> M World bool;
  UndoBlock : BlockElement -> ObserverState -> M World unit;
  Processor : ProcessorFunc;
  StateChange : StateChangeInfo -> M World unit;
  TransactionsChange : TransactionsChangeFunc
}.

(** Consumers are values naming the factory that made them and the
    arguments that distinguish them. *)
Inductive ValidationPolicy :=
| CreateParallelValidationPolicy (pValidatorPool : string).

Inductive BlockConsumer :=
| BlockHashCalculatorConsumer
| BlockHashCheckConsumer (options : HashCheckOptions)
| BlockAddressExtractionConsumer
| BlockChainCheckConsumer (maxChainSize : N) (maxBlockFutureTime : TimeSpan)
| BlockStatelessValidationConsumer (policy : ValidationPolicy).

Inductive TransactionConsumer :=
| TransactionHashCalculatorConsumer
| TransactionHashCheckConsumer (options : HashCheckOptions)
| TransactionAddressExtractionConsumer
| TransactionStatelessValidationConsumer (policy : ValidationPolicy).

Inductive DisruptorConsumer :=
| FromBlockConsumer (consumer : BlockConsumer)
| FromTransactionConsumer (consumer : TransactionConsumer)
| BlockChainSyncConsumer (maxRollbackBlocks : N) (handlers : BlockChainSyncHandlers)
| NewBlockConsumer (source : InputSource)
| NewTransactionsConsumer (sink : list TransactionInfo -> M World unit)
| AuditConsumer (auditDirectory : string).

Definition DisruptorConsumersFromBlockConsumers (consumers : list BlockConsumer)
  : list DisruptorConsumer := map FromBlockConsumer consumers.

Definition DisruptorConsumersFromTransactionConsumers (consumers : list TransactionConsumer)
  : list DisruptorConsumer := map FromTransactionConsumer consumers.

Inductive InspectorStep := statusSubscriber_flush | reclaimMemoryInspector.

Record ConsumerDispatcher := {
  dispatcher_options : ConsumerDispatcherOptions;
  dispatcher_consumers : list DisruptorConsumer;
  dispatcher_inspector : list InspectorStep
}.

(** *** region utils *)

Definition CreateBlockConsumerDispatcherOptions (config : NodeConfiguration)
  : ConsumerDispatcherOptions :=
  let options := ConsumerDispatcherOptions_new "block dispatcher" (BlockDisruptorSize config) in
  let options := set_ElementTraceInterval (BlockElementTraceInterval config) options in
  let options := set_ShouldThrowIfFull (ShouldAbortWhenDispatcherIsFull config) options in
  options.

Definition CreateTransactionConsumerDispatcherOptions (config : NodeConfiguration)
  : ConsumerDispatcherOptions :=
  let options := ConsumerDispatcherOptions_new "transaction dispatcher" (TransactionDisruptorSize config) in
  let options := set_ElementTraceInterval (TransactionElementTraceInterval config) options in
  let options := set_ShouldThrowIfFull (ShouldAbortWhenDispatcherIsFull config) options in
  options.

Definition create_directories (p : fs.path) : M World unit :=
  fun w =>
    let '(outcome, disk) := fs_create_directories p (directories w) in
    (outcome, set_directories (fun _ => disk) w).

(** The audit directory of a dispatcher for a given reading of the clock. *)
Definition auditPath_of (config : LocalNodeConfiguration) (options : ConsumerDispatcherOptions)
    (timestamp : Timestamp) : fs.path :=
  let auditPath := fs.of_string (DataDirectory (User config)) /p "audit" /p DispatcherName options in
  auditPath /p to_string (unwrap timestamp).

Definition CreateConsumerDispatcher (state : ServiceState) (options : ConsumerDispatcherOptions)
    (disruptorConsumers : list DisruptorConsumer) : M World ConsumerDispatcher :=
  let inspector := [statusSubscriber_flush; reclaimMemoryInspector] in
  (* if enabled, add an audit consumer before all other consumers *)
  let config := state_config state in
  disruptorConsumers ←
    (if ShouldAuditDispatcherInputs (Node config) then
       timestamp ← now (state_timeSupplier state);
       let auditPath := auditPath_of config options timestamp in
       effect (log_enabling_auditing auditPath) ;;
       create_directories auditPath ;;
       mret (AuditConsumer (fs.generic_string auditPath) :: disruptorConsumers)
     else mret disruptorConsumers);
  mret {| dispatcher_options := options;
          dispatcher_consumers := disruptorConsumers;
          dispatcher_inspector := inspector |}.

(** *** region block *)

Definition CreateSyncUndoBlockHandler : BlockElement -> ObserverState -> M World unit :=
  fun blockElement state =>
    effect (log_rolling_back_block (Height (Block_ blockElement))) ;;
    effect (RollbackBlock blockElement state).

Definition CreateBlockChainSyncHandlers (state : ServiceState) : BlockChainSyncHandlers :=
  let blockChainConfig := BlockChain (state_config state) in
  let undoBlockHandler := CreateSyncUndoBlockHandler in
  {| DifficultyChecker := fun blocks cache =>
       let result := CheckDifficulties (sub_BlockDifficultyCache cache) blocks blockChainConfig in
       rollbackInfo_do_reset ;;
       mret (bool_decide (N.of_nat (length blocks) = result));
     UndoBlock := fun blockElement observerState =>
       rollbackInfo_do_increment ;;
       undoBlockHandler blockElement observerState;
     Processor := CreateSyncProcessor blockChainConfig;
     StateChange := fun changeInfo =>
       effect (localScore_add (ScoreDelta changeInfo)) ;;
       Eff.modify (set_localScore (fun score => score + ScoreDelta changeInfo)) ;;
       (* subscriber will get both current local score and changeInfo *)
       w ← Eff.get;
       effect (notifyScoreChange (localScore w)) ;;
       effect (notifyStateChange changeInfo) ;;
       rollbackInfo_do_save;
     TransactionsChange := hooks_transactionsChangeHandler |}.

Record BlockDispatcherBuilder := {
  block_m_state : ServiceState;
  block_m_consumers : list BlockConsumer
}.

Definition BlockDispatcherBuilder_new (state : ServiceState) : BlockDispatcherBuilder :=
  {| block_m_state := state; block_m_consumers := [] |}.

Definition block_push_back (consumer : BlockConsumer) (b : BlockDispatcherBuilder)
  : BlockDispatcherBuilder :=
  {| block_m_state := block_m_state b;
     block_m_consumers := (block_m_consumers b ++ [consumer])%list |}.

Definition block_m_nodeConfig (b : BlockDispatcherBuilder) : NodeConfiguration :=
  Node (state_config (block_m_state b)).

Definition block_addHashConsumers (b : BlockDispatcherBuilder) : BlockDispatcherBuilder :=
  let b := block_push_back BlockHashCalculatorConsumer b in
  block_push_back
    (BlockHashCheckConsumer
       (CreateHashCheckOptions (ShortLivedCacheBlockDuration (block_m_nodeConfig b))
                               (block_m_nodeConfig b)))
    b.

Definition block_addPrecomputedTransactionAddressConsumer (b : BlockDispatcherBuilder)
  : BlockDispatcherBuilder :=
  block_push_back BlockAddressExtractionConsumer b.

Definition block_build (b : BlockDispatcherBuilder) (pValidatorPool : string)
  : M World ConsumerDispatcher :=
  let b := block_push_back
             (BlockChainCheckConsumer
                (MaxBlocksPerSyncAttempt (block_m_nodeConfig b))
                (MaxBlockFutureTime (BlockChain (state_config (block_m_state b)))))
             b in
  let b := block_push_back
             (BlockStatelessValidationConsumer (CreateParallelValidationPolicy pValidatorPool))
             b in
  let disruptorConsumers := DisruptorConsumersFromBlockConsumers (block_m_consumers b) in
  let disruptorConsumers :=
    (disruptorConsumers ++
       [BlockChainSyncConsumer
          (MaxRollbackBlocks (BlockChain (state_config (block_m_state b))))
          (CreateBlockChainSyncHandlers (block_m_state b))])%list in
  let disruptorConsumers := (disruptorConsumers ++ [NewBlockConsumer Local])%list in
  CreateConsumerDispatcher
    (block_m_state b)
    (CreateBlockConsumerDispatcherOptions (block_m_nodeConfig b))
    disruptorConsumers.

(** *** region transaction *)

Record TransactionDispatcherBuilder := {
  transaction_m_state : ServiceState;
  transaction_m_consumers : list TransactionConsumer
}.

Definition TransactionDispatcherBuilder_new (state : ServiceState) : TransactionDispatcherBuilder :=
  {| transaction_m_state := state; transaction_m_consumers := [] |}.

Definition transaction_push_back (consumer : TransactionConsumer) (b : TransactionDispatcherBuilder)
  : TransactionDispatcherBuilder :=
  {| transaction_m_state := transaction_m_state b;
     transaction_m_consumers := (transaction_m_consumers b ++ [consumer])%list |}.

Definition transaction_m_nodeConfig (b : TransactionDispatcherBuilder) : NodeConfiguration :=
  Node (state_config (transaction_m_state b)).

Definition transaction_addHashConsumers (b : TransactionDispatcherBuilder)
  : TransactionDispatcherBuilder :=
  let b := transaction_push_back TransactionHashCalculatorConsumer b in
  transaction_push_back
    (TransactionHashCheckConsumer
       (CreateHashCheckOptions (ShortLivedCacheTransactionDuration (transaction_m_nodeConfig b))
                               (transaction_m_nodeConfig b)))
    b.

Definition transaction_addPrecomputedTransactionAddressConsumer (b : TransactionDispatcherBuilder)
  : TransactionDispatcherBuilder :=
  transaction_push_back TransactionAddressExtractionConsumer b.

(** The function handed to [CreateNewTransactionsConsumer] by [build]. *)
Definition build_newTransactionsSink (transactionInfos : list TransactionInfo) : M World unit :=
  effect (newTransactionsSink transactionInfos) ;;
  effect (utUpdater_update transactionInfos).

Definition transaction_build (b : TransactionDispatcherBuilder) (pValidatorPool : string)
  : M World ConsumerDispatcher :=
  let b := transaction_push_back
             (TransactionStatelessValidationConsumer
                (CreateParallelValidationPolicy pValidatorPool))
             b in
  let disruptorConsumers :=
    DisruptorConsumersFromTransactionConsumers (transaction_m_consumers b) in
  let disruptorConsumers :=
    (disruptorConsumers ++ [NewTransactionsConsumer build_newTransactionsSink])%list in
  CreateConsumerDispatcher
    (transaction_m_state b)
    (CreateTransactionConsumerDispatcherOptions (transaction_m_nodeConfig b))
    disruptorConsumers.

(** *** Service registration *)

Inductive ServiceObject :=
| DispatcherObject (dispatcher : ConsumerDispatcher)
| TransactionBatchRangeDispatcher (dispatcher : ConsumerDispatcher)
| UtUpdaterObject
| NotificationPublisherObject
| RollbackInfoObject.

(** An entry of the service locator; a rooted service is kept alive by it.
    [RollbackInfoObject] is the rollback info of the world, shared with the
    sync handlers. *)
Record Registration := {
  rooted : bool;
  service : ServiceObject
}.

Record Boot := {
  locator : gmap string Registration;
  world : World
}.

Definition in_world {A} (m : M World A) : M Boot A :=
  fun b => let '(r, w) := m (world b) in (r, {| locator := locator b; world := w |}).

Definition locator_registerService (name : string) (s : ServiceObject) : M Boot unit :=
  Eff.modify (fun b => {| locator := <[name := {| rooted := false; service := s |}]> (locator b);
                          world := world b |}).

Definition locator_registerRootedService (name : string) (s : ServiceObject) : M Boot unit :=
  Eff.modify (fun b => {| locator := <[name := {| rooted := true; service := s |}]> (locator b);
                          world := world b |}).

Definition RegisterBlockDispatcherService (pDispatcher : ConsumerDispatcher) : M Boot unit :=
  in_world (effect (serviceGroup_registerService (DispatcherName (dispatcher_options pDispatcher)))) ;;
  locator_registerService "dispatcher.block" (DispatcherObject pDispatcher) ;;
  in_world (effect hooks_setBlockRangeConsumerFactory) ;;
  in_world (effect hooks_setCompletionAwareBlockRangeConsumerFactory).

Definition RegisterTransactionDispatcherService (pDispatcher : ConsumerDispatcher) : M Boot unit :=
  in_world (effect (serviceGroup_registerService (DispatcherName (dispatcher_options pDispatcher)))) ;;
  locator_registerService "dispatcher.transaction" (DispatcherObject pDispatcher) ;;
  locator_registerRootedService "dispatcher.transaction.batch"
    (TransactionBatchRangeDispatcher pDispatcher) ;;
  in_world (effect hooks_setTransactionRangeConsumerFactory) ;;
  in_world (effect (tasks_push_back "transaction")).

Definition CreateAndRegisterUtUpdater : M Boot unit :=
  locator_registerRootedService "dispatcher.utUpdater" UtUpdaterObject ;;
  in_world (effect hooks_addTransactionsChangeHandler).

Definition CreateAndRegisterRollbackService (timeSupplier : nat -> Timestamp)
    (config : BlockChainConfiguration) : M Boot unit :=
  let rollbackDurationFull := CalculateFullRollbackDuration config in
  let rollbackDurationHalf := FromMilliseconds (millis rollbackDurationFull / 2)%N in
  in_world (Eff.modify (set_rollbackInfo
                          (fun _ => RollbackInfo_new timeSupplier rollbackDurationHalf))) ;;
  locator_registerRootedService "rollbacks" RollbackInfoObject.

Definition registerServices (state : ServiceState) : M Boot unit :=
  (* create shared services *)
  let pValidatorPool := "validator" in
  in_world (effect (pushIsolatedPool pValidatorPool)) ;;
  CreateAndRegisterUtUpdater ;;
  (* create the block and transaction dispatchers and related services *)
  in_world (effect (pushServiceGroup "dispatcher service")) ;;
  let blockDispatcherBuilder := BlockDispatcherBuilder_new state in
  let blockDispatcherBuilder := block_addHashConsumers blockDispatcherBuilder in
  let transactionDispatcherBuilder := TransactionDispatcherBuilder_new state in
  let transactionDispatcherBuilder := transaction_addHashConsumers transactionDispatcherBuilder in
  builders ←
    (if ShouldPrecomputeTransactionAddresses (Node (state_config state)) then
       let blockDispatcherBuilder :=
         block_addPrecomputedTransactionAddressConsumer blockDispatcherBuilder in
       let transactionDispatcherBuilder :=
         transaction_addPrecomputedTransactionAddressConsumer transactionDispatcherBuilder in
       locator_registerRootedService "dispatcher.notificationPublisher"
         NotificationPublisherObject ;;
       mret (blockDispatcherBuilder, transactionDispatcherBuilder)
     else mret (blockDispatcherBuilder, transactionDispatcherBuilder));
  CreateAndRegisterRollbackService (state_timeSupplier state) (BlockChain (state_config state)) ;;
  pBlockDispatcher ← in_world (block_build builders.1 pValidatorPool);
  RegisterBlockDispatcherService pBlockDispatcher ;;
  pTransactionDispatcher ← in_world (transaction_build builders.2 pValidatorPool);
  RegisterTransactionDispatcherService pTransactionDispatcher.

(** [AddRollbackCounter]: the value a registered rollback counter reports
    when it is read. *)
Definition AddRollbackCounter (rollbackResult : RollbackResult)
    (rollbackCounterType : RollbackCounterType) : M World N :=
  w ← Eff.get;
  timestamp ← now (ri_timeSupplier (rollbackInfo w));
  mret (RollbackInfo_counter timestamp rollbackResult rollbackCounterType (rollbackInfo w)).

Definition registerServiceCounters : list (string * M World N) :=
  [("RB COMMIT ALL", AddRollbackCounter Committed All);
   ("RB COMMIT RCT", AddRollbackCounter Committed Recent);
   ("RB IGNORE ALL", AddRollbackCounter Ignored All);
   ("RB IGNORE RCT", AddRollbackCounter Ignored Recent)].

(** *** Vocabulary of the properties *)

(** The effects a run added to the world. *)
Definition new_effects (before after : World) : list Effect :=
  drop (length (effects before)) (effects after).

Definition is_subscriber_call (e : Effect) : bool :=
  match e with
  | notifyScoreChange _ | notifyStateChange _ => true
  | _ => false
  end.

Definition is_increment (e : Effect) : bool :=
  match e with
  | rollbackInfo_increment => true
  | _ => false
  end.

(** The block pipeline as the specification lists it: hash calculator, hash
    check, address extraction when precomputing is enabled, chain check,
    parallel stateless validation, chain sync, new-block announce. *)
Definition spec_block_pipeline (state : ServiceState) : list DisruptorConsumer :=
  let config := state_config state in
  [FromBlockConsumer BlockHashCalculatorConsumer;
   FromBlockConsumer
     (BlockHashCheckConsumer
        (CreateHashCheckOptions (ShortLivedCacheBlockDuration (Node config)) (Node config)))]
  ++ (if ShouldPrecomputeTransactionAddresses (Node config)
      then [FromBlockConsumer BlockAddressExtractionConsumer] else [])
  ++ [FromBlockConsumer
        (BlockChainCheckConsumer (MaxBlocksPerSyncAttempt (Node config))
                                 (MaxBlockFutureTime (BlockChain config)));
      FromBlockConsumer
        (BlockStatelessValidationConsumer (CreateParallelValidationPolicy "validator"));
      BlockChainSyncConsumer (MaxRollbackBlocks (BlockChain config))
                             (CreateBlockChainSyncHandlers state);
      NewBlockConsumer Local].

(** The audit consumer put in front of a pipeline built when the clock has
    been read [reads] times: present exactly when auditing is enabled. *)
Definition spec_audit_prefix (state : ServiceState) (options : ConsumerDispatcherOptions)
    (reads : nat) : list DisruptorConsumer :=
  if ShouldAuditDispatcherInputs (Node (state_config state))
  then [AuditConsumer
          (fs.generic_string
             (auditPath_of (state_config state) options (state_timeSupplier state reads)))]
  else [].

Definition is_audit (c : DisruptorConsumer) : bool :=
  match c with
  | AuditConsumer _ => true
  | _ => false
  end.

(** The audit directory of a dispatcher built in world [w] need not be
    created, or [create_directories] returns on it. *)
Definition audit_directory_created (state : ServiceState)
    (options : ConsumerDispatcherOptions) (w : World) : Prop :=
  ShouldAuditDispatcherInputs (Node (state_config state)) = false \/
  (fs_create_directories
     (auditPath_of (state_config state) options (state_timeSupplier state (clockReads w)))
     (directories w)).1 = Ok tt.

(** The transaction pipeline as [registerServices] assembles it. *)
Definition spec_transaction_pipeline (state : ServiceState) : list DisruptorConsumer :=
  let config := state_config state in
  [FromTransactionConsumer TransactionHashCalculatorConsumer;
   FromTransactionConsumer
     (TransactionHashCheckConsumer
        (CreateHashCheckOptions (ShortLivedCacheTransactionDuration (Node config))
                                (Node config)))]
  ++ (if ShouldPrecomputeTransactionAddresses (Node config)
      then [FromTransactionConsumer TransactionAddressExtractionConsumer] else [])
  ++ [FromTransactionConsumer
        (TransactionStatelessValidationConsumer (CreateParallelValidationPolicy "validator"));
      NewTransactionsConsumer build_newTransactionsSink].

(** The consumers [build] of the block dispatcher builder appends to whatever
    was added before. *)
Definition block_build_suffix (state : ServiceState) (pValidatorPool : string)
  : list DisruptorConsumer :=
  [FromBlockConsumer
     (BlockChainCheckConsumer (MaxBlocksPerSyncAttempt (Node (state_config state)))
                              (MaxBlockFutureTime (BlockChain (state_config state))));
   FromBlockConsumer
     (BlockStatelessValidationConsumer (CreateParallelValidationPolicy pValidatorPool));
   BlockChainSyncConsumer (MaxRollbackBlocks (BlockChain (state_config state)))
                          (CreateBlockChainSyncHandlers state);
   NewBlockConsumer Local].

(** The names [registerServices] registers whatever the configuration. *)
Definition registered_names : list string :=
  ["dispatcher.utUpdater"; "rollbacks"; "dispatcher.block"; "dispatcher.transaction";
   "dispatcher.transaction.batch"].


(** The effects of undoing the blocks of a range one by one. *)
Definition undo_effects (observerState : ObserverState) (elements : list BlockElement)
  : list Effect :=
  flat_map (fun blockElement =>
              [rollbackInfo_increment;
               log_rolling_back_block (Height (Block_ blockElement));
               RollbackBlock blockElement observerState])
           elements.

(** The notifications of a sequence of state changes starting at [score]:
    each score change carries the running total. *)
Fixpoint running_notifications (score : ChainScore) (changeInfos : list StateChangeInfo)
  : list Effect :=
  match changeInfos with
  | [] => []
  | changeInfo :: rest =>
      notifyScoreChange (score + ScoreDelta changeInfo)
      :: notifyStateChange changeInfo
      :: running_notifications (score + ScoreDelta changeInfo) rest
  end.

Definition sum_ScoreDelta (changeInfos : list StateChangeInfo) : ChainScore :=
  foldr (fun changeInfo acc => ScoreDelta changeInfo + acc) 0 changeInfos.

End DispatcherService.

(** *** Sample collaborators and inputs *)

(** The number of leading blocks whose difficulty is the expected one. *)
Fixpoint matching_prefix (expected : list N) (blocks : list Block) : N :=
  match expected, blocks with
  | e :: expected', b :: blocks' =>
      if (e =? Difficulty b)%N then (1 + matching_prefix expected' blocks')%N else 0%N
  | _, _ => 0%N
  end.

(** A sample file system: the directories that exist and the regular files
    that exist; a directory cannot be created at or below a regular file. *)
Record SampleDisk := {
  sample_directories : list string;
  sample_files : list string
}.

Definition sample_create_directories (p : fs.path) (disk : SampleDisk) : Res unit * SampleDisk :=
  if existsb (fun file => String.prefix file p) (sample_files disk)
  then (Throw "boost::filesystem::create_directories: Not a directory", disk)
  else (Ok tt, {| sample_directories := p :: sample_directories disk;
                  sample_files := sample_files disk |}).

Definition sample_collaborators : Collaborators.
Proof.
  refine
    {| CatapultCache := list N;
       BlockDifficultyCache := list N;
       sub_BlockDifficultyCache := fun cache => cache;
       ObserverState := N;
       TransactionInfo := N;
       CacheChanges := unit;
       CheckDifficulties := fun cache blocks _ => matching_prefix cache blocks;
       CalculateFullRollbackDuration :=
         fun config => FromMilliseconds (MaxRollbackBlocks config * 15001)%N;
       Disk := SampleDisk;
       fs_is_directory := fun p disk => existsb (String.eqb p) (sample_directories disk);
       fs_create_directories := sample_create_directories |}.
  - abstract (intros p disk disk'; unfold sample_create_directories;
              destruct (existsb _ (sample_files disk)); intros [= <-]; cbn;
              now rewrite String.eqb_refl).
  - abstract (intros p q disk outcome disk'; unfold sample_create_directories;
              destruct (existsb _ (sample_files disk)); intros [= <- <-]; [done|];
              cbn; intros ->; apply orb_true_r).
Defined.

Definition sample_disk : SampleDisk :=
  {| sample_directories := []; sample_files := [] |}.

Definition sample_disk_blocked : SampleDisk :=
  {| sample_directories := []; sample_files := ["../data/audit"] |}.

Definition sample_state : ServiceState :=
  {| state_config := server.sample_config;
     state_timeSupplier := fun n => MkTimestamp (1700000000000 + N.of_nat n)%N |}.

Definition sample_world : @World sample_collaborators :=
  {| clockReads := 0;
     directories := sample_disk : @Disk sample_collaborators;
     localScore := 1000;
     rollbackInfo :=
       {| ri_timeSupplier := state_timeSupplier sample_state;
          ri_recentStatsTimeSpan := FromMilliseconds 300020;
          ri_pending := 3;
          ri_committed := [(MkTimestamp 1699999000000, 2%N)];
          ri_ignored := [] |};
     effects := [] |}.

Definition sample_boot : @Boot sample_collaborators :=
  {| locator := ∅; world := sample_world |}.

(** A world in which a regular file sits where the audit directory goes. *)
Definition sample_world_blocked : @World sample_collaborators :=
  {| clockReads := 0;
     directories := sample_disk_blocked : @Disk sample_collaborators;
     localScore := 1000;
     rollbackInfo := rollbackInfo sample_world;
     effects := [] |}.


Definition sample_observerState : @ObserverState sample_collaborators := 0%N.

Definition sample_transactionInfos : list (@TransactionInfo sample_collaborators) :=
  [11; 12]%N.

Definition sample_block (height difficulty : N) : Block :=
  {| Height := height; Difficulty := difficulty |}.


Definition sample_changeInfo (delta : Z) : @StateChangeInfo sample_collaborators :=
  {| CacheChanges_ := tt : @CacheChanges sample_collaborators; ScoreDelta := delta |}.

Definition sample_blockElement (height : N) : BlockElement :=
  {| Block_ := sample_block height 10; EntityHash := height |}.

End sync.

(** * Properties *)

(** ** Paths *)

Module fs_facts.

Lemma append_assoc (a b c : string) : (a +:+ b) +:+ c = a +:+ (b +:+ c).
Proof.
  induction a as [|x a IH]; [reflexivity|].
  change (String x ((a +:+ b) +:+ c) = String x (a +:+ (b +:+ c))). now rewrite IH.
Qed.

Lemma is_empty_app (p e : string) :
  fs.is_empty (p +:+ e) = fs.is_empty p && fs.is_empty e.
Proof. now destruct p. Qed.

Lemma ends_with_separator_app (p e : string) :
  fs.is_empty e = false ->
  fs.ends_with_separator (p +:+ e) = fs.ends_with_separator e.
Proof.
  intros He. induction p as [|c p IH]; [reflexivity|].
  change (String c p +:+ e) with (String c (p +:+ e)).
  assert (Hne : fs.is_empty (p +:+ e) = false)
    by (rewrite is_empty_app, He; apply andb_false_r).
  destruct (p +:+ e) as [|c' r]; [discriminate|]. exact IH.
Qed.

(** Appending an element that is not empty and does not begin with a
    separator: one separator goes in between unless the path is empty or
    already ends with one. *)
Lemma append_relative (p e : string) :
  fs.is_empty e = false -> fs.begins_with_separator e = false ->
  p /p e = if fs.is_empty p || fs.ends_with_separator p then p +:+ e else p +:+ "/" +:+ e.
Proof. intros He Hb. unfold fs.append. now rewrite He, Hb. Qed.

Lemma append_relative_ends (p e : string) :
  fs.is_empty e = false -> fs.begins_with_separator e = false ->
  fs.ends_with_separator (p /p e) = fs.ends_with_separator e /\
  fs.is_empty (p /p e) = false.
Proof.
  intros He Hb. rewrite append_relative by assumption.
  destruct (fs.is_empty p || fs.ends_with_separator p).
  - split; [now apply ends_with_separator_app|].
    now rewrite is_empty_app, He, andb_false_r.
  - split.
    + rewrite ends_with_separator_app; [|now destruct e].
      change ("/" +:+ e) with (String "/" e). cbn. now destruct e.
    + now rewrite is_empty_app, andb_false_r.
Qed.

Lemma pretty_N_go_relative (x : N) :
  forall s, fs.is_empty s = false -> fs.begins_with_separator s = false ->
            fs.is_empty (pretty_N_go x s) = false /\
            fs.begins_with_separator (pretty_N_go x s) = false.
Proof.
  induction (N.lt_wf_0 x) as [x _ IH]. intros s He Hb.
  assert (x = 0 \/ 0 < x)%N as [->|Hpos] by lia.
  - now rewrite pretty_N_go_0.
  - rewrite pretty_N_go_step by done. apply IH.
    + now apply N.div_lt.
    + reflexivity.
    + unfold pretty_N_char. cbn. now repeat case_match.
Qed.

(** The decimal rendering of a number is not empty and begins with a digit. *)
Lemma to_string_relative (n : N) :
  fs.is_empty (to_string n) = false /\ fs.begins_with_separator (to_string n) = false.
Proof.
  unfold to_string, pretty, pretty_N. case_decide as Hn; [now split|].
  rewrite pretty_N_go_step by lia. apply pretty_N_go_relative; [reflexivity|].
  unfold pretty_N_char. cbn. now repeat case_match.
Qed.

End fs_facts.

(** ** Server main *)

Module server_facts.
Import config server.

(** Splits on the outcome of every outside call left in the goal. *)
Ltac outcomes :=
  repeat match goal with
         | |- context [match ?r with Ok _ => _ | Throw _ => _ end] =>
             let E := fresh "E" in destruct r eqn:E; cbn
         | |- context [if ?b then _ else _] =>
             let E := fresh "E" in destruct b eqn:E; cbn
         | u : unit |- _ => destruct u
         end.

Ltac run_main :=
  unfold ServerMain, LoadConfiguration, SetupLogging, Run, Eff.try_catch, emit, call,
    Eff.modify, Eff.throw, mbind, mret, eff_bind, eff_ret, Eff.bind, Eff.ret; cbn.

(** ** C10 *)

(** C10: [GetResourcesPath] is a total function of [argc] and [argv]; with
    [argc > 1] it is [argv[1]] joined with "resources", otherwise ".." joined
    with "resources", whose generic form is "../resources"; a node started
    without arguments ([argc <= 1]) loads its configuration from there. *)
Theorem GetResourcesPath_spec (argc : Z) (argv : list string) :
  (argc > 1 -> forall a, argv !! 1%nat = Some a ->
     GetResourcesPath argc argv = fs.of_string a /p "resources") /\
  (argc <= 1 ->
     GetResourcesPath argc argv = fs.of_string ".." /p "resources" /\
     fs.generic_string (GetResourcesPath argc argv) = "../resources" /\
     forall h createLocalNode,
       exists ok rest,
         (ServerMain h argc argv createLocalNode []).2 =
           [SetThreadName "Server Main"; WriteVersionInformation;
            Cout "loading resources from " "../resources";
            LoadFromPath "../resources" ok] ++ rest /\
         ok = Eff.is_ok (host_LoadFromPath h "../resources")).
Proof.
  unfold GetResourcesPath. split.
  - intros Hgt a Ha. rewrite bool_decide_eq_true_2 by done. now rewrite Ha.
  - intros Hle. rewrite bool_decide_eq_false_2 by lia.
    repeat split; try reflexivity.
    intros h createLocalNode. run_main. unfold GetResourcesPath.
    rewrite bool_decide_eq_false_2 by lia. cbn.
    change (fs.of_string ".." /p "resources") with "../resources".
    outcomes; eexists _, _; (split; [reflexivity | reflexivity]).
Qed.

Lemma GetResourcesPath_witness :
  GetResourcesPath 2 ["catapult.server"; "/opt/catapult"] = "/opt/catapult/resources" /\
  GetResourcesPath 1 ["catapult.server"] = "../resources".
Proof.
  split.
  - exact (proj1 (GetResourcesPath_spec 2 ["catapult.server"; "/opt/catapult"])
             ltac:(lia) "/opt/catapult" eq_refl).
  - exact (proj1 (proj2 (GetResourcesPath_spec 1 ["catapult.server"]) ltac:(lia))).
Defined.

(** ** C8 *)

(** What the scan certifies, read on the trace itself: a logging setup or
    lock event is preceded by a load that returned and, after that load, a
    validation that returned. *)
Lemma only_after_config_sound (t : Trace) :
  forall loaded validated pre e post,
    only_after_config loaded validated t = true ->
    t = pre ++ e :: post ->
    needs_config e = true ->
    (loaded = true /\ validated = true) \/
    (loaded = true /\ In (ValidateConfiguration true) pre) \/
    (exists resourcesPath before after,
        pre = before ++ LoadFromPath resourcesPath true :: after /\
        In (ValidateConfiguration true) after).
Proof.
  induction t as [|x t IH]; intros loaded validated pre e post Hscan Heq He.
  - destruct pre; discriminate.
  - destruct pre as [|y pre]; simplify_eq/=.
    + destruct e; try discriminate; cbn in Hscan;
        apply andb_prop in Hscan as [Hlv _]; apply andb_prop in Hlv as [-> ->]; auto.
    + assert (Hshift : forall (p : fs.path) b a,
                 pre = b ++ LoadFromPath p true :: a ->
                 y :: pre = (y :: b) ++ LoadFromPath p true :: a) by (by intros p b a ->).
      destruct y; cbn in Hscan; rewrite ?andb_true_iff in Hscan; destruct_and?;
        (edestruct IH as [[Hl Hv]|[[Hl Hv]|(p & b & a & Hpre & Hv)]];
         [eassumption | reflexivity | assumption | | | ]);
        try (right; right; eexists p, (_ :: b), a; split; [by apply Hshift | done]);
        try (right; left; split; [done | by right]);
        try (left; done).
      * right; right. exists resourcesPath, [], pre. by subst.
      * apply andb_true_iff in Hv as [_ ->]. right; left. split; [done | by left].
Qed.

(** The outcome of [Run] does not depend on the trace it extends. *)
Lemma Run_outcome_trace_independent h config createLocalNode (t : Trace) :
  (Run h config createLocalNode t).1 = (Run h config createLocalNode []).1.
Proof. run_main. outcomes; reflexivity. Qed.

#[local] Arguments GetResourcesPath : simpl never.

Ltac main_steps :=
  unfold ServerMain, LoadConfiguration, SetupLogging, Eff.try_catch, emit, call,
    Eff.modify, Eff.throw, mbind, mret, eff_bind, eff_ret, Eff.bind, Eff.ret; cbn.

(** C8: [ServerMain] always returns, with one of four codes: -1 when loading
    or validating the configuration throws; -3 when the instance lock on the
    path DataDirectory / "file.lock" (the data directory, then one separator
    unless it is empty or ends with one, then file.lock) is not acquired, and
    then no step of running the node is taken; -2 when [Run] throws with the
    lock held; 0 when [Run] completes normally. Logging setup and the lock
    attempt occur only after a load and a validation that returned. *)
Theorem ServerMain_exit_codes (h : Host) (argc : Z) (argv : list string)
    (createLocalNode : CreateLocalNodeFunc) :
  let result := ServerMain h argc argv createLocalNode [] in
  (exists code, result.1 = Ok code /\ In code [0; -1; -2; -3]) /\
  ((exists what, host_LoadFromPath h (GetResourcesPath argc argv) = Throw what) ->
     result.1 = Ok (-1)) /\
  (forall config what,
     host_LoadFromPath h (GetResourcesPath argc argv) = Ok config ->
     host_ValidateConfiguration h config = Throw what ->
     result.1 = Ok (-1)) /\
  (forall config,
     config_loaded h argc argv config -> logging_set_up h config ->
     host_try_lock h (lockFile config) = Ok false ->
     lockFile config = fs.generic_string (fs.of_string (DataDirectory (User config)) /p "file.lock") /\
     lockFile config =
       (if fs.is_empty (DataDirectory (User config))
           || fs.ends_with_separator (DataDirectory (User config))
        then DataDirectory (User config) +:+ "file.lock"
        else DataDirectory (User config) +:+ "/file.lock") /\
     result.1 = Ok (-3) /\ filter (fun e => runs_node e = true) result.2 = []) /\
  (forall config,
     config_loaded h argc argv config -> logging_set_up h config ->
     host_try_lock h (lockFile config) = Ok true ->
     Run_throws h config createLocalNode ->
     result.1 = Ok (-2)) /\
  (forall config,
     config_loaded h argc argv config -> logging_set_up h config ->
     host_try_lock h (lockFile config) = Ok true ->
     Run_completes h config createLocalNode ->
     result.1 = Ok 0) /\
  (forall pre e post,
     result.2 = pre ++ e :: post -> needs_config e = true ->
     exists resourcesPath before after,
       pre = before ++ LoadFromPath resourcesPath true :: after /\
       In (ValidateConfiguration true) after).
Proof.
  cbn zeta. repeat apply conj.
  - run_main. generalize (GetResourcesPath argc argv). intros rp.
    outcomes; eexists; (split; [reflexivity | cbn; tauto]).
  - intros [what Hload]. main_steps. now rewrite Hload.
  - intros config what Hload Hvalidate. main_steps. now rewrite Hload, Hvalidate.
  - intros config [Hload Hvalidate] [Hconsole Hfile] Hlock. split; [reflexivity|]. split.
    { unfold lockFile, fs.generic_string, fs.of_string.
      now apply fs_facts.append_relative. }
    unfold lockFile in Hlock; cbn in Hlock. main_steps.
    now rewrite Hload, Hvalidate, Hconsole, Hfile, Hlock.
  - intros config [Hload Hvalidate] [Hconsole Hfile] Hlock [what Hrun].
    unfold lockFile in Hlock; cbn in Hlock. main_steps.
    rewrite Hload, Hvalidate, Hconsole, Hfile, Hlock. cbn.
    match goal with |- context [Run h config createLocalNode ?t] =>
      pose proof (Run_outcome_trace_independent h config createLocalNode t) as Hind;
      destruct (Run h config createLocalNode t) as [r t'] end.
    cbn in Hind. rewrite Hrun in Hind. now subst r.
  - intros config [Hload Hvalidate] [Hconsole Hfile] Hlock Hrun.
    unfold lockFile in Hlock; cbn in Hlock. main_steps.
    rewrite Hload, Hvalidate, Hconsole, Hfile, Hlock. cbn.
    match goal with |- context [Run h config createLocalNode ?t] =>
      pose proof (Run_outcome_trace_independent h config createLocalNode t) as Hind;
      destruct (Run h config createLocalNode t) as [r t'] end.
    cbn in Hind. rewrite Hrun in Hind. now subst r.
  - intros pre e post Htrace He.
    assert (Hscan : only_after_config false false
                      (ServerMain h argc argv createLocalNode []).2 = true).
    { clear. run_main. generalize (GetResourcesPath argc argv). intros rp. outcomes; reflexivity. }
    destruct (only_after_config_sound _ _ _ _ _ _ Hscan Htrace He)
      as [[? _]|[[? _]|Hfound]]; [done | done | exact Hfound].
Qed.

Lemma ServerMain_exit_codes_witness :
  (ServerMain (sample_host (Throw "bad file") (Ok tt) (Ok true)) 1 ["catapult.server"]
     (fun _ _ => Ok tt) []).1 = Ok (-1) /\
  (ServerMain (sample_host (Ok sample_config) (Throw "invalid") (Ok true)) 1 ["catapult.server"]
     (fun _ _ => Ok tt) []).1 = Ok (-1) /\
  (ServerMain (sample_host (Ok sample_config) (Ok tt) (Ok false)) 1 ["catapult.server"]
     (fun _ _ => Ok tt) []).1 = Ok (-3) /\
  (ServerMain (sample_host (Ok sample_config) (Ok tt) (Ok true)) 1 ["catapult.server"]
     (fun _ _ => Throw "boot failed") []).1 = Ok (-2) /\
  (ServerMain (sample_host (Ok sample_config) (Ok tt) (Ok true)) 1 ["catapult.server"]
     (fun _ _ => Ok tt) []).1 = Ok 0.
Proof.
  repeat apply conj.
  - apply (ServerMain_exit_codes (sample_host (Throw "bad file") (Ok tt) (Ok true))).
    now exists "bad file".
  - apply (ServerMain_exit_codes (sample_host (Ok sample_config) (Throw "invalid") (Ok true)))
      with (config := sample_config) (what := "invalid"); reflexivity.
  - apply (ServerMain_exit_codes (sample_host (Ok sample_config) (Ok tt) (Ok false)))
      with (config := sample_config); [split; reflexivity | split; reflexivity | reflexivity].
  - apply (ServerMain_exit_codes (sample_host (Ok sample_config) (Ok tt) (Ok true)))
      with (config := sample_config);
      [split; reflexivity | split; reflexivity | reflexivity | now exists "boot failed"].
  - apply (ServerMain_exit_codes (sample_host (Ok sample_config) (Ok tt) (Ok true)))
      with (config := sample_config);
      [split; reflexivity | split; reflexivity | reflexivity | reflexivity].
Defined.

End server_facts.

(** ** Write-once hooks *)

Module extensions_facts.
Import extensions.

(** C9: [SetOnce] assigns the source to an unset destination; on a set
    destination it throws an invalid-argument error and leaves the destination
    as it was; [Require] returns a set function and throws an invalid-argument
    error on an unset one. *)
Theorem SetOnce_Require_write_once {F : Type} (dest source func : option F) :
  (dest = None -> SetOnce source dest = (Ok tt, source)) /\
  (is_Some dest -> SetOnce source dest = (Throw catapult_invalid_argument, dest)) /\
  (forall f, func = Some f -> Require func = Ok f) /\
  (func = None -> Require func = Throw catapult_invalid_argument).
Proof.
  repeat apply conj.
  - intros ->. reflexivity.
  - intros [f ->]. reflexivity.
  - intros f ->. reflexivity.
  - intros ->. reflexivity.
Qed.

(** The four tests of BasicServerHooksTests on [SetOnce] and [Require]. *)
Lemma SetOnce_Require_witness :
  let f123 : BasicFunc := fun _ => 123 in
  let f987 : BasicFunc := fun _ => 987 in
  (option_map (fun f => f tt) (SetOnce (Some f123) None).2 = Some 123) /\
  ((SetOnce (Some f987) (Some f123)).1 = Throw catapult_invalid_argument /\
   option_map (fun f => f tt) (SetOnce (Some f987) (Some f123)).2 = Some 123) /\
  (Require (Some f123) = Ok f123) /\
  (Require (@None BasicFunc) = Throw catapult_invalid_argument).
Proof.
  intros f123 f987. repeat apply conj.
  - rewrite (proj1 (SetOnce_Require_write_once None (Some f123) None) eq_refl).
    reflexivity.
  - rewrite (proj1 (proj2 (SetOnce_Require_write_once (Some f123) (Some f987) None))
               (ex_intro _ f123 eq_refl)).
    reflexivity.
  - rewrite (proj1 (proj2 (SetOnce_Require_write_once (Some f123) (Some f987) None))
               (ex_intro _ f123 eq_refl)).
    reflexivity.
  - apply (proj1 (proj2 (proj2 (SetOnce_Require_write_once None None (Some f123))))).
    reflexivity.
  - apply (proj2 (proj2 (proj2 (SetOnce_Require_write_once None None (@None BasicFunc))))).
    reflexivity.
Defined.

End extensions_facts.

(** ** Dispatcher service *)

Module sync_facts.
Import config sync.

Section Handlers.
Context `{Collaborators}.

Ltac run_world :=
  unfold CreateBlockChainSyncHandlers; cbn;
  unfold rollbackInfo_do_save, rollbackInfo_do_reset, rollbackInfo_do_increment,
    CreateSyncUndoBlockHandler, build_newTransactionsSink, create_directories, effect, now,
    Eff.modify, Eff.get, mbind, mret, eff_bind, eff_ret, Eff.bind, Eff.ret; cbn.

Lemma new_effects_app (w w' : World) (added : list Effect) :
  effects w' = effects w ++ added -> new_effects w w' = added.
Proof. unfold new_effects. intros ->. apply drop_app_length. Qed.

(** C1: the StateChange handler adds the score delta to the local score,
    notifies the subscriber of the score change with the updated score, then
    of the state change, and finally saves the rollback info; the local score
    grows by exactly the delta and the subscriber gets exactly one
    score-change followed by exactly one state-change notification. *)
Theorem StateChange_score_then_notifications (state : ServiceState)
    (changeInfo : StateChangeInfo) (w : World) :
  let D := ScoreDelta changeInfo in
  let result := StateChange (CreateBlockChainSyncHandlers state) changeInfo w in
  result.1 = Ok tt /\
  new_effects w result.2 =
    [localScore_add D; notifyScoreChange (localScore w + D);
     notifyStateChange changeInfo; rollbackInfo_save] /\
  localScore result.2 - localScore w = D /\
  filter (fun e => is_subscriber_call e = true) (new_effects w result.2) =
    [notifyScoreChange (localScore result.2); notifyStateChange changeInfo] /\
  rollbackInfo result.2 =
    RollbackInfo_save (ri_timeSupplier (rollbackInfo w) (clockReads w)) (rollbackInfo w) /\
  ri_pending (rollbackInfo result.2) = 0%N.
Proof.
  cbn zeta.
  assert (Heff : effects (StateChange (CreateBlockChainSyncHandlers state) changeInfo w).2 =
                 effects w ++ [localScore_add (ScoreDelta changeInfo);
                                notifyScoreChange (localScore w + ScoreDelta changeInfo);
                                notifyStateChange changeInfo; rollbackInfo_save]).
  { run_world. now rewrite <- !app_assoc. }
  rewrite (new_effects_app _ _ _ Heff).
  repeat apply conj; try reflexivity.
  run_world. lia.
Qed.

(** C2: the DifficultyChecker handler returns true exactly when the number of
    matching blocks reported by [CheckDifficulties] (on the block difficulty
    sub cache and the chain configuration) equals the number of incoming
    blocks; whenever it returns false the pending state of the rollback info
    has been reset. *)
Theorem DifficultyChecker_true_iff_all_match (state : ServiceState) (blocks : list Block)
    (cache : CatapultCache) (w : World) :
  let matching :=
    CheckDifficulties (sub_BlockDifficultyCache cache) blocks (BlockChain (state_config state)) in
  let result := DifficultyChecker (CreateBlockChainSyncHandlers state) blocks cache w in
  (result.1 = Ok true <-> N.of_nat (length blocks) = matching) /\
  (result.1 = Ok false ->
     N.of_nat (length blocks) <> matching /\
     new_effects w result.2 = [rollbackInfo_reset] /\
     rollbackInfo result.2 =
       RollbackInfo_reset (ri_timeSupplier (rollbackInfo w) (clockReads w)) (rollbackInfo w) /\
     ri_pending (rollbackInfo result.2) = 0%N).
Proof.
  cbn zeta. run_world. case_bool_decide as Hmatch; split.
  - split; [intros _; exact Hmatch | reflexivity].
  - discriminate.
  - split; [discriminate | contradiction].
  - intros _. repeat apply conj; try reflexivity; [exact Hmatch | now apply new_effects_app].
Qed.

(** C3: the UndoBlock handler increments the pending counter of the rollback
    info exactly once, and does so before the undo observer is run over the
    block element by [RollbackBlock]. *)
Theorem UndoBlock_increments_once_before_rollback (state : ServiceState)
    (blockElement : BlockElement) (observerState : ObserverState) (w : World) :
  let result := UndoBlock (CreateBlockChainSyncHandlers state) blockElement observerState w in
  result.1 = Ok tt /\
  new_effects w result.2 =
    [rollbackInfo_increment;
     log_rolling_back_block (Height (Block_ blockElement));
     RollbackBlock blockElement observerState] /\
  length (filter (fun e => is_increment e = true) (new_effects w result.2)) = 1%nat /\
  rollbackInfo result.2 = RollbackInfo_increment (rollbackInfo w) /\
  ri_pending (rollbackInfo result.2) = (ri_pending (rollbackInfo w) + 1)%N.
Proof.
  cbn zeta.
  assert (Heff : effects (UndoBlock (CreateBlockChainSyncHandlers state)
                            blockElement observerState w).2 =
                 effects w ++ [rollbackInfo_increment;
                                log_rolling_back_block (Height (Block_ blockElement));
                                RollbackBlock blockElement observerState]).
  { run_world. now rewrite <- !app_assoc. }
  rewrite (new_effects_app _ _ _ Heff).
  repeat apply conj; reflexivity.
Qed.

(** Splits on the outcome of every [create_directories] left in the goal. *)
Ltac creations :=
  repeat match goal with
         | |- context [fs_create_directories ?p ?disk] =>
             let E := fresh "Hcreate" in
             destruct (fs_create_directories p disk) as [[[]|?] ?] eqn:E; cbn
         end.

(** C4: the function [build] hands to the NewTransactions consumer, the last
    consumer of every transaction dispatcher [build] returns, invokes the
    new-transactions sink with the batch and then [UtUpdater.update] with the
    same batch, and does nothing else. [build] returns a dispatcher unless
    the audit directory has to be created and cannot be. *)
Theorem NewTransactions_sink_before_update (b : TransactionDispatcherBuilder)
    (pValidatorPool : string) (w0 : World)
    (transactionInfos : list TransactionInfo) (w : World) :
  (forall d, (transaction_build b pValidatorPool w0).1 = Ok d ->
             last (dispatcher_consumers d) =
               Some (NewTransactionsConsumer build_newTransactionsSink)) /\
  (audit_directory_created (transaction_m_state b)
     (CreateTransactionConsumerDispatcherOptions (transaction_m_nodeConfig b)) w0 ->
   exists d, (transaction_build b pValidatorPool w0).1 = Ok d) /\
  let result := build_newTransactionsSink transactionInfos w in
  result.1 = Ok tt /\
  new_effects w result.2 =
    [newTransactionsSink transactionInfos; utUpdater_update transactionInfos] /\
  result.2 = set_effects (fun _ => effects result.2) w.
Proof.
  split; [|split].
  - unfold transaction_build, CreateConsumerDispatcher. run_world.
    destruct (ShouldAuditDispatcherInputs _); cbn; creations;
      intros ? [= <-]; cbn; rewrite ?last_cons, last_snoc; reflexivity.
  - unfold audit_directory_created, transaction_build, CreateConsumerDispatcher,
      transaction_m_nodeConfig.
    run_world.
    destruct (ShouldAuditDispatcherInputs _); cbn; creations;
      intros [?|?]; try discriminate; eexists; reflexivity.
  - cbn zeta. repeat apply conj; try reflexivity.
    apply new_effects_app. run_world. now rewrite <- !app_assoc.
Qed.

(** The pathname of an audit directory, for a dispatcher name that is not
    empty and neither begins nor ends with a separator. *)
Lemma auditPath_of_string (config : LocalNodeConfiguration)
    (options : ConsumerDispatcherOptions) (timestamp : Timestamp) :
  fs.is_plain (DispatcherName options) = true ->
  fs.generic_string (auditPath_of config options timestamp) =
    ((if fs.is_empty (DataDirectory (User config))
         || fs.ends_with_separator (DataDirectory (User config))
      then DataDirectory (User config) +:+ "audit"
      else DataDirectory (User config) +:+ "/audit")
     +:+ "/" +:+ DispatcherName options)
    +:+ "/" +:+ to_string (unwrap timestamp).
Proof.
  unfold fs.is_plain. rewrite !andb_true_iff, !negb_true_iff. intros [[Hempty Hbegins] Hends].
  unfold auditPath_of, fs.generic_string, fs.of_string.
  destruct (fs_facts.to_string_relative (unwrap timestamp)) as [Ht Htb].
  destruct (fs_facts.append_relative_ends (DataDirectory (User config)) "audit" eq_refl eq_refl)
    as [Haudit_ends Haudit_empty].
  destruct (fs_facts.append_relative_ends (DataDirectory (User config) /p "audit")
              (DispatcherName options) Hempty Hbegins) as [Hname_ends Hname_empty].
  rewrite (fs_facts.append_relative _ (to_string (unwrap timestamp)) Ht Htb).
  rewrite Hname_ends, Hends, Hname_empty. cbn [orb].
  rewrite (fs_facts.append_relative _ (DispatcherName options) Hempty Hbegins).
  rewrite Haudit_ends, Haudit_empty. cbn [orb fs.ends_with_separator].
  rewrite (fs_facts.append_relative _ "audit" eq_refl eq_refl).
  now destruct (fs.is_empty _ || fs.ends_with_separator _).
Qed.

(** C6: with auditing enabled, [CreateConsumerDispatcher] reads the clock
    once and calls [create_directories] on the path DataDirectory / "audit" /
    dispatcherName / <that reading, unwrapped, in decimal>; when that returns,
    the directory exists and an audit consumer for it is in front of all
    other consumers; when it throws, the exception leaves the function and no
    dispatcher is built. With auditing disabled no consumer is added and the
    world, and so the file system, is untouched. *)
Theorem CreateConsumerDispatcher_audit (state : ServiceState)
    (options : ConsumerDispatcherOptions) (disruptorConsumers : list DisruptorConsumer)
    (w : World) :
  let config := state_config state in
  let result := CreateConsumerDispatcher state options disruptorConsumers w in
  let timestamp := state_timeSupplier state (clockReads w) in
  let auditPath := auditPath_of config options timestamp in
  (ShouldAuditDispatcherInputs (Node config) = true ->
     auditPath =
       fs.of_string (DataDirectory (User config)) /p "audit" /p DispatcherName options
         /p to_string (unwrap timestamp) /\
     (fs.is_plain (DispatcherName options) = true ->
      fs.generic_string auditPath =
        ((if fs.is_empty (DataDirectory (User config))
             || fs.ends_with_separator (DataDirectory (User config))
          then DataDirectory (User config) +:+ "audit"
          else DataDirectory (User config) +:+ "/audit")
         +:+ "/" +:+ DispatcherName options)
        +:+ "/" +:+ to_string (unwrap timestamp)) /\
     clockReads result.2 = S (clockReads w) /\
     directories result.2 = (fs_create_directories auditPath (directories w)).2 /\
     ((fs_create_directories auditPath (directories w)).1 = Ok tt ->
      (exists d, result.1 = Ok d /\
         dispatcher_consumers d =
           AuditConsumer (fs.generic_string auditPath) :: disruptorConsumers) /\
      fs_is_directory auditPath (directories result.2) = true) /\
     (forall what, (fs_create_directories auditPath (directories w)).1 = Throw what ->
                   result.1 = Throw what)) /\
  (ShouldAuditDispatcherInputs (Node config) = false ->
     (exists d, result.1 = Ok d /\ dispatcher_consumers d = disruptorConsumers) /\
     result.2 = w).
Proof.
  cbn zeta. unfold CreateConsumerDispatcher. split; intros Haudit; rewrite Haudit.
  - split; [reflexivity|]. split; [apply auditPath_of_string|].
    run_world.
    destruct (fs_create_directories _ _) as [[[]|what] disk] eqn:Hcreate; cbn.
    + repeat split; try discriminate.
      * eexists; split; reflexivity.
      * eapply fs_create_directories_post, Hcreate.
    + repeat split; try discriminate. now intros ? [= ->].
  - run_world. split; [eexists; split; reflexivity | reflexivity].
Qed.

Ltac run_boot :=
  unfold registerServices, RegisterTransactionDispatcherService,
    RegisterBlockDispatcherService, CreateAndRegisterRollbackService,
    CreateAndRegisterUtUpdater, locator_registerRootedService, locator_registerService,
    in_world, transaction_build, block_build, CreateConsumerDispatcher;
  run_world.

(** Exposes the configuration switches of a service state. *)
Ltac open_state state :=
  destruct state as [[? [? ? ? ? ? [] [] ? ? ?] ? ?] ?].

Ltac lookup_service :=
  repeat (rewrite lookup_insert_ne by discriminate); rewrite lookup_insert_eq.

Lemma In_block_address_extraction (state : ServiceState) (front : list DisruptorConsumer) :
  Forall (fun c => is_audit c = true) front ->
  In (FromBlockConsumer BlockAddressExtractionConsumer) (front ++ spec_block_pipeline state) <->
  ShouldPrecomputeTransactionAddresses (Node (state_config state)) = true.
Proof.
  intros Hfront. rewrite in_app_iff. unfold spec_block_pipeline.
  destruct (ShouldPrecomputeTransactionAddresses _); cbn; split; try done.
  - intros _. right. tauto.
  - intros [Hin | Hin].
    + rewrite Forall_forall in Hfront.
      apply list_elem_of_In, Hfront in Hin. discriminate.
    + intuition discriminate.
Qed.

(** C5: the consumers of the block dispatcher registered by
    [registerServices] are, in this order, the block hash calculator, the
    block hash check (on [ShortLivedCacheBlockDuration]), the block address
    extraction if and only if [ShouldPrecomputeTransactionAddresses], the
    block chain check (on [MaxBlocksPerSyncAttempt] and [MaxBlockFutureTime]),
    the parallel stateless validation, the block chain sync (on [MaxRollbackBlocks])
    and the new-block announce, with an audit consumer in front of them all
    when auditing is enabled. The dispatcher is built and registered unless
    its audit directory has to be created and cannot be; in particular it is
    whenever [registerServices] returns, and [registerServices] returns
    whenever auditing is disabled. *)
Theorem block_dispatcher_consumer_order (state : ServiceState) (b : Boot) :
  let result := registerServices state b in
  let config := state_config state in
  let options := CreateBlockConsumerDispatcherOptions (Node config) in
  (result.1 = Ok tt -> audit_directory_created state options (world b)) /\
  (ShouldAuditDispatcherInputs (Node config) = false -> result.1 = Ok tt) /\
  (audit_directory_created state options (world b) ->
   exists d,
    locator result.2 !! "dispatcher.block" =
      Some {| rooted := false; service := DispatcherObject d |} /\
    dispatcher_options d = options /\
    dispatcher_consumers d =
      spec_audit_prefix state options (clockReads (world b)) ++ spec_block_pipeline state /\
    (ShouldAuditDispatcherInputs (Node config) = true ->
       exists auditDirectory,
         dispatcher_consumers d = AuditConsumer auditDirectory :: spec_block_pipeline state) /\
    (ShouldAuditDispatcherInputs (Node config) = false ->
       dispatcher_consumers d = spec_block_pipeline state) /\
    (In (FromBlockConsumer BlockAddressExtractionConsumer) (dispatcher_consumers d) <->
       ShouldPrecomputeTransactionAddresses (Node config) = true)).
Proof.
  cbn zeta.
  assert (Hrun :
    ((registerServices state b).1 = Ok tt ->
     audit_directory_created state
       (CreateBlockConsumerDispatcherOptions (Node (state_config state))) (world b)) /\
    (ShouldAuditDispatcherInputs (Node (state_config state)) = false ->
     (registerServices state b).1 = Ok tt) /\
    (audit_directory_created state
       (CreateBlockConsumerDispatcherOptions (Node (state_config state))) (world b) ->
     exists d, locator (registerServices state b).2 !! "dispatcher.block" =
                 Some {| rooted := false; service := DispatcherObject d |} /\
       dispatcher_options d = CreateBlockConsumerDispatcherOptions (Node (state_config state)) /\
       dispatcher_consumers d =
         spec_audit_prefix state
           (CreateBlockConsumerDispatcherOptions (Node (state_config state)))
           (clockReads (world b)) ++ spec_block_pipeline state)).
  { unfold audit_directory_created.
    open_state state; run_boot; creations;
      (split; [|split]);
      try (intros _; first [left; reflexivity | right; reflexivity]);
      try discriminate; try reflexivity;
      try (intros [?|?]; try discriminate);
      eexists; (split; [lookup_service; reflexivity | split; reflexivity]). }
  destruct Hrun as (Hreturned & Hplain & Hbuilt).
  split; [exact Hreturned|]. split; [exact Hplain|].
  intros Hcreated. destruct (Hbuilt Hcreated) as (d & Hlookup & Hoptions & Hconsumers).
  exists d. do 3 (split; [assumption|]). split; [|split].
  - intros Haudit. rewrite Hconsumers. unfold spec_audit_prefix. rewrite Haudit.
    eexists. reflexivity.
  - intros Haudit. rewrite Hconsumers. unfold spec_audit_prefix. now rewrite Haudit.
  - rewrite Hconsumers. apply In_block_address_extraction.
    unfold spec_audit_prefix. destruct (ShouldAuditDispatcherInputs _); repeat constructor.
Qed.

Lemma recent_events_skip_old (window : TimeSpan) (now : Timestamp)
    (newer older : list (Timestamp * N)) (old : Timestamp * N) :
  (unwrap old.1 + millis window < unwrap now)%N ->
  recent_events window now (newer ++ old :: older) = recent_events window now (newer ++ older).
Proof.
  intros Hold. unfold recent_events.
  rewrite !filter_app. f_equal.
  rewrite filter_cons_False; [reflexivity|].
  unfold is_recent. rewrite N.leb_le. lia.
Qed.

Lemma half_is_floor (full : N) : (2 * (full / 2) <= full < 2 * (full / 2) + 2)%N.
Proof.
  split.
  - apply N.Div0.mul_div_le.
  - pose proof (N.mul_succ_div_gt full 2 ltac:(lia)). lia.
Qed.

(** C7: the rollback info registered under "rollbacks" is constructed with
    the time supplier and a recent window of the full rollback duration
    divided by two in whole milliseconds, rounded down; the sync handlers keep
    that window, and a query of a Recent counter leaves out every event older
    than it. *)
Theorem rollback_service_half_window (state : ServiceState) (b : Boot) :
  let config := BlockChain (state_config state) in
  let full := millis (CalculateFullRollbackDuration config) in
  let half := (full / 2)%N in
  let created := CreateAndRegisterRollbackService (state_timeSupplier state) config b in
  let registered := registerServices state b in
  (created.1 = Ok tt /\
   rollbackInfo (world created.2) =
     RollbackInfo_new (state_timeSupplier state) (FromMilliseconds half) /\
   locator created.2 !! "rollbacks" = Some {| rooted := true; service := RollbackInfoObject |}) /\
  (rollbackInfo (world registered.2) =
     RollbackInfo_new (state_timeSupplier state) (FromMilliseconds half) /\
   locator registered.2 !! "rollbacks" =
     Some {| rooted := true; service := RollbackInfoObject |}) /\
  (2 * half <= full < 2 * half + 2)%N /\
  (forall ri timestamp,
     ri_recentStatsTimeSpan (RollbackInfo_increment ri) = ri_recentStatsTimeSpan ri /\
     ri_recentStatsTimeSpan (RollbackInfo_reset timestamp ri) = ri_recentStatsTimeSpan ri /\
     ri_recentStatsTimeSpan (RollbackInfo_save timestamp ri) = ri_recentStatsTimeSpan ri) /\
  (forall ri now result newer old older,
     ri_recentStatsTimeSpan ri = FromMilliseconds half ->
     ri_events result ri = newer ++ old :: older ->
     (unwrap old.1 + half < unwrap now)%N ->
     RollbackInfo_counter now result Recent ri =
       (sum_deltas (recent_events (FromMilliseconds half) now (newer ++ older)) mod 2 ^ 64)%N).
Proof.
  cbn zeta. split; [|split; [|split; [|split]]].
  - run_boot. split; [reflexivity | split; [reflexivity | now rewrite lookup_insert_eq]].
  - open_state state; run_boot; creations; (split; [reflexivity | now lookup_service]).
  - apply half_is_floor.
  - intros ri timestamp. repeat split.
  - intros ri now result newer old older Hwindow Hevents Hold.
    unfold RollbackInfo_counter. rewrite Hwindow, Hevents.
    now rewrite recent_events_skip_old.
Qed.

End Handlers.

(** *** The properties on sample inputs *)

Lemma StateChange_sample :
  let changeInfo := {| CacheChanges_ := tt : @CacheChanges sample_collaborators;
                       ScoreDelta := 50 |} in
  let result := StateChange (CreateBlockChainSyncHandlers sample_state) changeInfo sample_world in
  localScore result.2 = 1050 /\
  effects result.2 =
    [localScore_add 50; notifyScoreChange 1050; notifyStateChange changeInfo;
     rollbackInfo_save] /\
  ri_committed (rollbackInfo result.2) =
    [(MkTimestamp 1699999000000, 2%N); (MkTimestamp 1700000000000, 3%N)].
Proof.
  intros changeInfo result.
  destruct (StateChange_score_then_notifications sample_state changeInfo sample_world)
    as (_ & Heffects & Hscore & _ & Hsave & _).
  fold result in Heffects, Hscore, Hsave.
  split; [|split].
  - change (localScore sample_world) with 1000 in Hscore.
    change (ScoreDelta changeInfo) with 50 in Hscore. lia.
  - exact Heffects.
  - rewrite Hsave. reflexivity.
Defined.

Lemma DifficultyChecker_witness :
  let handlers := @CreateBlockChainSyncHandlers sample_collaborators sample_state in
  let mismatching := [sample_block 101 10; sample_block 102 21] in
  let matching := [sample_block 101 10; sample_block 102 20] in
  (DifficultyChecker handlers matching [10; 20]%N sample_world).1 = Ok true /\
  (DifficultyChecker handlers mismatching [10; 20]%N sample_world).1 = Ok false /\
  ri_pending (rollbackInfo (DifficultyChecker handlers mismatching [10; 20]%N sample_world).2) = 0%N.
Proof.
  intros handlers mismatching matching. split; [|split].
  - apply (@DifficultyChecker_true_iff_all_match sample_collaborators
             sample_state matching [10; 20]%N sample_world).
    reflexivity.
  - reflexivity.
  - apply (@DifficultyChecker_true_iff_all_match sample_collaborators
             sample_state mismatching [10; 20]%N sample_world).
    reflexivity.
Defined.

Lemma UndoBlock_sample :
  let blockElement := {| Block_ := sample_block 100 10; EntityHash := 7 |} in
  let result := UndoBlock (CreateBlockChainSyncHandlers sample_state)
                  blockElement sample_observerState sample_world in
  effects result.2 =
    [rollbackInfo_increment; log_rolling_back_block 100;
     RollbackBlock blockElement sample_observerState] /\
  ri_pending (rollbackInfo result.2) = 4%N.
Proof.
  intros blockElement result.
  destruct (UndoBlock_increments_once_before_rollback
              sample_state blockElement sample_observerState sample_world)
    as (_ & Heffects & _ & _ & Hpending).
  split; [exact Heffects | exact Hpending].
Defined.

Lemma NewTransactions_sample :
  (exists d,
     (transaction_build (TransactionDispatcherBuilder_new sample_state) "validator"
        sample_world).1 = Ok d) /\
  effects (build_newTransactionsSink sample_transactionInfos sample_world).2 =
    [newTransactionsSink sample_transactionInfos; utUpdater_update sample_transactionInfos].
Proof.
  destruct (NewTransactions_sink_before_update
              (TransactionDispatcherBuilder_new sample_state) "validator" sample_world
              sample_transactionInfos sample_world)
    as (_ & Hreturns & _ & Heffects & _).
  split; [|exact Heffects].
  apply Hreturns. right. vm_compute. reflexivity.
Defined.

Lemma block_dispatcher_consumer_order_witness :
  exists d,
    locator (registerServices sample_state sample_boot).2 !! "dispatcher.block" =
      Some {| rooted := false; service := DispatcherObject d |} /\
    dispatcher_consumers d =
      [AuditConsumer "../data/audit/block dispatcher/1700000000000";
       FromBlockConsumer BlockHashCalculatorConsumer;
       FromBlockConsumer
         (BlockHashCheckConsumer
            (CreateHashCheckOptions (FromMilliseconds 100) (Node server.sample_config)));
       FromBlockConsumer (BlockChainCheckConsumer 30 (FromMilliseconds 10000));
       FromBlockConsumer
         (BlockStatelessValidationConsumer (CreateParallelValidationPolicy "validator"));
       BlockChainSyncConsumer 40 (CreateBlockChainSyncHandlers sample_state);
       NewBlockConsumer Local].
Proof.
  destruct (@block_dispatcher_consumer_order sample_collaborators sample_state sample_boot)
    as (_ & _ & Hbuilt).
  destruct Hbuilt as (d & Hlookup & _ & Hconsumers & Haudit & _ & _).
  { right. vm_compute. reflexivity. }
  exists d. split; [exact Hlookup|].
  destruct (Haudit eq_refl) as [auditDirectory Hfront].
  rewrite Hconsumers. vm_compute. reflexivity.
Defined.

Lemma CreateConsumerDispatcher_audit_witness :
  let options := CreateBlockConsumerDispatcherOptions (Node server.sample_config) in
  let result := @CreateConsumerDispatcher sample_collaborators
                  sample_state options [NewBlockConsumer Local] sample_world in
  let blocked := @CreateConsumerDispatcher sample_collaborators
                   sample_state options [NewBlockConsumer Local] sample_world_blocked in
  (exists d, result.1 = Ok d /\
     dispatcher_consumers d =
       [AuditConsumer "../data/audit/block dispatcher/1700000000000"; NewBlockConsumer Local]) /\
  fs_is_directory "../data/audit/block dispatcher/1700000000000" (directories result.2) = true /\
  blocked.1 = Throw "boost::filesystem::create_directories: Not a directory".
Proof.
  intros options result blocked.
  destruct (@CreateConsumerDispatcher_audit sample_collaborators
              sample_state options [NewBlockConsumer Local] sample_world) as [Henabled _].
  destruct (Henabled eq_refl) as (_ & _ & _ & _ & Hcreated & _).
  destruct Hcreated as [(d & Hd & Hconsumers) Hdirectory]; [vm_compute; reflexivity|].
  destruct (@CreateConsumerDispatcher_audit sample_collaborators
              sample_state options [NewBlockConsumer Local] sample_world_blocked)
    as [Hblocked _].
  destruct (Hblocked eq_refl) as (_ & _ & _ & _ & _ & Hthrows).
  split; [|split].
  - exists d. split; [exact Hd|]. rewrite Hconsumers. vm_compute. reflexivity.
  - exact Hdirectory.
  - apply Hthrows. vm_compute. reflexivity.
Defined.

Lemma rollback_service_half_window_witness :
  ri_recentStatsTimeSpan
    (rollbackInfo (world (registerServices sample_state sample_boot).2)) =
    FromMilliseconds 300020 /\
  RollbackInfo_counter (MkTimestamp 500000) Committed Recent
    {| ri_timeSupplier := state_timeSupplier sample_state;
       ri_recentStatsTimeSpan := FromMilliseconds 300020;
       ri_pending := 0;
       ri_committed := [(MkTimestamp 1000, 2%N); (MkTimestamp 400000, 5%N)];
       ri_ignored := [] |} = 5%N.
Proof.
  destruct (@rollback_service_half_window sample_collaborators sample_state sample_boot)
    as (_ & [Hregistered _] & _ & _ & Hrecent).
  split.
  - rewrite Hregistered. reflexivity.
  - rewrite (Hrecent _ (MkTimestamp 500000) Committed []
               (MkTimestamp 1000, 2%N) [(MkTimestamp 400000, 5%N)]);
      [reflexivity | reflexivity | reflexivity | reflexivity].
Defined.

End sync_facts.

(** * Further properties *)

(** ** Server main: exit codes, traces and the life of the node *)

Module server_more.
Import config server server_facts.

#[local] Arguments GetResourcesPath : simpl never.

Lemma ServerMain_follows_table (h : Host) (argc : Z) (argv : list string)
    (createLocalNode : CreateLocalNodeFunc) :
  (ServerMain h argc argv createLocalNode []).1 =
    Ok (exit_code_table h argc argv createLocalNode).
Proof.
  unfold exit_code_table, lockFile. main_steps.
  destruct (host_LoadFromPath h _) as [config|]; cbn; [|reflexivity].
  destruct (host_ValidateConfiguration h config); cbn; [|reflexivity].
  destruct (host_addConsoleLogger h _); cbn; [|reflexivity].
  destruct (host_addFileLogger h _); cbn; [|reflexivity].
  destruct (host_try_lock h _) as [[|]|]; cbn; try reflexivity.
  match goal with |- context [Run h config createLocalNode ?t] =>
    pose proof (Run_outcome_trace_independent h config createLocalNode t) as Hind;
    destruct (Run h config createLocalNode t) as [r t'] end.
  cbn in Hind. rewrite <- Hind. now destruct r.
Qed.

(** Settles one equivalence between an exit code and a stage, once every
    outcome is known. *)
Ltac stage_iff config :=
  split;
  [ intros Hcode; first
      [ discriminate Hcode
      | exists config; repeat split; first [assumption | eexists; eassumption]
      | intros (cfg & locked & [? ?] & [? ?] & ?); congruence ]
  | intros Hstage; first
      [ reflexivity
      | exfalso; destruct Hstage as (cfg & [? ?] & [? ?] & ?);
        repeat match goal with
               | H : _ /\ _ |- _ => destruct H
               | H : exists _, _ |- _ => destruct H
               end;
        congruence
      | exfalso; apply Hstage; do 2 eexists; repeat split; eassumption ] ].

(** X1: the exit code tells which stage was reached. 0 exactly when the
    configuration loaded and validated, logging was set up, the lock was
    acquired and [Run] completed; -2 exactly when all that held but [Run]
    threw; -3 exactly when the lock attempt returned false; -1 exactly when
    no lock attempt returned, that is when loading, validation, logging setup
    or the lock attempt itself threw. *)
Theorem ServerMain_exit_code_iff (h : Host) (argc : Z) (argv : list string)
    (createLocalNode : CreateLocalNodeFunc) :
  let result := ServerMain h argc argv createLocalNode [] in
  (result.1 = Ok 0 <->
     exists config, config_loaded h argc argv config /\ logging_set_up h config /\
                    host_try_lock h (lockFile config) = Ok true /\
                    Run_completes h config createLocalNode) /\
  (result.1 = Ok (-2) <->
     exists config, config_loaded h argc argv config /\ logging_set_up h config /\
                    host_try_lock h (lockFile config) = Ok true /\
                    Run_throws h config createLocalNode) /\
  (result.1 = Ok (-3) <->
     exists config, config_loaded h argc argv config /\ logging_set_up h config /\
                    host_try_lock h (lockFile config) = Ok false) /\
  (result.1 = Ok (-1) <->
     ~ exists config locked, config_loaded h argc argv config /\ logging_set_up h config /\
                             host_try_lock h (lockFile config) = Ok locked).
Proof.
  cbn zeta. rewrite ServerMain_follows_table.
  unfold exit_code_table, config_loaded, logging_set_up, Run_completes, Run_throws.
  destruct (host_LoadFromPath h (GetResourcesPath argc argv)) as [config|what] eqn:Hload.
  2: { split; [|split; [|split]]; stage_iff tt. }
  destruct (host_ValidateConfiguration h config) eqn:Hvalidate,
           (host_addConsoleLogger h (CreateLogFilter (Console (Logging config)))) eqn:Hconsole,
           (host_addFileLogger h (CreateLogFilter (File (Logging config)))) eqn:Hfile,
           (host_try_lock h (lockFile config)) as [[|]|] eqn:Hlock;
    try destruct ((Run h config createLocalNode []).1) eqn:Hrun;
    repeat match goal with u : unit |- _ => destruct u end;
    (split; [|split; [|split]]); stage_iff config.
Qed.

(** X2: an exception from logging setup or from the lock attempt is handled
    like a configuration failure: exit code -1, the report on the error
    stream names "loading configuration", and no step of running the node is
    taken. *)
Theorem ServerMain_setup_failure_reported_as_configuration (h : Host) (argc : Z)
    (argv : list string) (createLocalNode : CreateLocalNodeFunc)
    (config : LocalNodeConfiguration) :
  config_loaded h argc argv config ->
  (exists what,
     host_addConsoleLogger h (CreateLogFilter (Console (Logging config))) = Throw what) \/
  (exists what,
     host_addConsoleLogger h (CreateLogFilter (Console (Logging config))) = Ok tt /\
     host_addFileLogger h (CreateLogFilter (File (Logging config))) = Throw what) \/
  (exists what, logging_set_up h config /\ host_try_lock h (lockFile config) = Throw what) ->
  let result := ServerMain h argc argv createLocalNode [] in
  result.1 = Ok (-1) /\
  last result.2 = Some (CerrUnhandledException "loading configuration") /\
  existsb runs_node result.2 = false.
Proof.
  intros [Hload Hvalidate] Hfailure. cbn zeta.
  destruct Hfailure as [[what Hconsole]|[(what & Hconsole & Hfile)|(what & [Hconsole Hfile] & Hlock)]];
    try (unfold lockFile in Hlock; cbn in Hlock);
    main_steps; rewrite Hload, Hvalidate, Hconsole, ?Hfile, ?Hlock; cbn;
    repeat split; reflexivity.
Qed.

Lemma ServerMain_setup_failure_witness :
  (ServerMain sample_host_bad_logger 1 ["catapult.server"] (fun _ _ => Ok tt) []).1 = Ok (-1).
Proof.
  apply (ServerMain_setup_failure_reported_as_configuration
           sample_host_bad_logger 1 ["catapult.server"] (fun _ _ => Ok tt) sample_config).
  - split; reflexivity.
  - right; left. exists "cannot open log file". split; reflexivity.
Defined.

(** X3: the last event of the trace determines the exit code: the report
    "loading configuration" on the error stream for -1, the fatal log
    "running local node" for -2, the fatal log about the lock file path
    DataDirectory / "file.lock" of the loaded configuration for -3, and the
    destruction of the node for 0. *)
Theorem ServerMain_last_event (h : Host) (argc : Z) (argv : list string)
    (createLocalNode : CreateLocalNodeFunc) :
  let result := ServerMain h argc argv createLocalNode [] in
  (result.1 = Ok (-1) <->
     last result.2 = Some (CerrUnhandledException "loading configuration")) /\
  (result.1 = Ok (-2) <->
     last result.2 = Some (LogUnhandledException fatal "running local node")) /\
  (result.1 = Ok (-3) <->
     exists config,
       host_LoadFromPath h (GetResourcesPath argc argv) = Ok config /\
       last result.2 =
         Some (LogPath fatal "could not acquire instance lock "
                 (fs.of_string (DataDirectory (User config)) /p "file.lock"))) /\
  (result.1 = Ok 0 <-> last result.2 = Some DestroyLocalNode).
Proof.
  cbn zeta. run_main.
  destruct (host_LoadFromPath h (GetResourcesPath argc argv)) as [config|] eqn:Hload; cbn.
  2: { (split; [|split; [|split]]); split; intros Hx; try discriminate Hx; try reflexivity.
       destruct Hx as (? & ? & _); discriminate. }
  outcomes; (split; [|split; [|split]]); split; intros Hx;
    try discriminate Hx; try reflexivity;
    try (destruct Hx as (? & _ & Hx); discriminate Hx);
    try (exists config; split; reflexivity).
Qed.

(** What the scan [preceded_by] certifies, read on the trace itself. *)
Lemma preceded_by_sound (guard target : Event -> bool) (t : Trace) :
  forall seen pre e post,
    preceded_by guard target seen t = true ->
    t = pre ++ e :: post ->
    target e = true ->
    seen = true \/ exists e', In e' pre /\ guard e' = true.
Proof.
  induction t as [|x t IH]; intros seen pre e post Hscan Heq He.
  - destruct pre; discriminate.
  - cbn in Hscan. apply andb_prop in Hscan as [Hhere Hrest].
    destruct pre as [|y pre]; simplify_eq/=.
    + rewrite He in Hhere. cbn in Hhere. now left.
    + destruct (IH _ _ _ _ Hrest eq_refl He) as [Hseen | (e' & Hin & Hguard)].
      * apply orb_prop in Hseen as [Hseen | Hguard]; [now left|].
        right. exists y. split; [now left | exact Hguard].
      * right. exists e'. split; [now right | exact Hguard].
Qed.

(** X4: the node is run only by the instance that holds the lock: when any
    step of [Run] occurs in the trace, the configuration was loaded and
    validated, logging was set up and the lock attempt on the lock file of
    that configuration returned true; and a lock attempt precedes that step
    in the trace. *)
Theorem node_runs_only_with_lock (h : Host) (argc : Z) (argv : list string)
    (createLocalNode : CreateLocalNodeFunc) :
  let result := ServerMain h argc argv createLocalNode [] in
  (existsb runs_node result.2 = true ->
     exists config, config_loaded h argc argv config /\ logging_set_up h config /\
                    host_try_lock h (lockFile config) = Ok true) /\
  (forall pre e post,
     result.2 = pre ++ e :: post -> runs_node e = true ->
     exists e', In e' pre /\ is_lock_attempt e' = true).
Proof.
  cbn zeta. split.
  - unfold config_loaded, logging_set_up, lockFile. run_main.
    destruct (host_LoadFromPath h (GetResourcesPath argc argv)) as [config|] eqn:Hload; cbn;
      [|discriminate].
    outcomes; intros Hruns; try discriminate Hruns;
      repeat match goal with
             | Hneg : negb ?b = _ |- _ => destruct b; try discriminate Hneg; clear Hneg
             end;
      exists config; repeat split; assumption.
  - intros pre e post Htrace He.
    assert (Hscan : preceded_by is_lock_attempt runs_node false
                      (ServerMain h argc argv createLocalNode []).2 = true).
    { clear. run_main. outcomes; reflexivity. }
    destruct (preceded_by_sound _ _ _ _ _ _ _ Hscan Htrace He) as [?|?]; [discriminate | assumption].
Qed.

Lemma node_runs_only_with_lock_witness :
  exists config,
    config_loaded (sample_host (Ok sample_config) (Ok tt) (Ok true)) 1 ["catapult.server"] config /\
    host_try_lock (sample_host (Ok sample_config) (Ok tt) (Ok true)) (lockFile config) = Ok true.
Proof.
  destruct (proj1 (node_runs_only_with_lock
                     (sample_host (Ok sample_config) (Ok tt) (Ok true)) 1 ["catapult.server"]
                     (fun _ _ => Ok tt)) eq_refl)
    as (config & Hloaded & _ & Hlock).
  exists config. split; assumption.
Defined.

(** X5: the node factory is invoked at most once; a node it returned is
    destroyed exactly once before [ServerMain] returns, also when waiting for
    the termination signal throws, and nothing is destroyed when no node was
    returned; a destruction comes after the creation. *)
Theorem created_node_is_destroyed_once (h : Host) (argc : Z) (argv : list string)
    (createLocalNode : CreateLocalNodeFunc) :
  let result := ServerMain h argc argv createLocalNode [] in
  (count is_factory_call result.2 <= 1)%nat /\
  count is_destroyed result.2 = count is_created result.2 /\
  (forall pre e post,
     result.2 = pre ++ e :: post -> is_destroyed e = true ->
     exists e', In e' pre /\ is_created e' = true).
Proof.
  cbn zeta. split; [|split].
  - run_main. outcomes; cbn; lia.
  - run_main. outcomes; reflexivity.
  - intros pre e post Htrace He.
    assert (Hscan : preceded_by is_created is_destroyed false
                      (ServerMain h argc argv createLocalNode []).2 = true).
    { clear. run_main. outcomes; reflexivity. }
    destruct (preceded_by_sound _ _ _ _ _ _ _ Hscan Htrace He) as [?|?]; [discriminate | assumption].
Qed.

(** X6: when the boot key of the configuration cannot be parsed, [Run]
    rethrows that exception without consulting the node factory: its result
    is the same for every factory, and the trace ends with the failed
    parse. *)
Theorem Run_bad_boot_key (h : Host) (config : LocalNodeConfiguration) (what : string)
    (createLocalNode createOther : CreateLocalNodeFunc) (t : Trace) :
  host_KeyPairFromString h (BootKey (User config)) = Throw what ->
  Run h config createLocalNode t = (Throw what, t ++ [KeyPairFromString false]) /\
  Run h config createLocalNode t = Run h config createOther t.
Proof.
  intros Hkey. run_main. now rewrite Hkey.
Qed.

Lemma Run_bad_boot_key_witness :
  Run sample_host_bad_key sample_config (fun _ _ => Ok tt) [] =
    (Throw "invalid boot key", [KeyPairFromString false]).
Proof.
  apply (Run_bad_boot_key sample_host_bad_key sample_config "invalid boot key"
           (fun _ _ => Ok tt) (fun _ _ => Ok tt) []).
  reflexivity.
Defined.

Lemma fold_setLevel (levels : list (string * LogLevel)) :
  forall pFilter,
    filter_level (fold_left (fun f pair => setLevel f pair.1 pair.2) levels pFilter) =
      filter_level pFilter /\
    filter_components (fold_left (fun f pair => setLevel f pair.1 pair.2) levels pFilter) =
      filter_components pFilter ++ levels.
Proof.
  induction levels as [|[name level] levels IH]; intros pFilter; cbn.
  - now rewrite app_nil_r.
  - destruct (IH (setLevel pFilter name level)) as [-> ->]. cbn.
    now rewrite <- app_assoc.
Qed.

(** X7: [CreateLogFilter] starts from the configured default level and sets
    the level of every configured component exactly once, in configuration
    order; without component levels the filter has the default level only. *)
Theorem CreateLogFilter_levels (config : BasicLoggerConfiguration) :
  filter_level (CreateLogFilter config) = Level config /\
  filter_components (CreateLogFilter config) = ComponentLevels config /\
  (ComponentLevels config = [] -> CreateLogFilter config = LogFilter_new (Level config)).
Proof.
  unfold CreateLogFilter.
  destruct (fold_setLevel (ComponentLevels config) (LogFilter_new (Level config))) as [Hl Hc].
  split; [exact Hl | split; [exact Hc |]].
  intros ->. reflexivity.
Qed.

(** X8: every run loads the configuration exactly once, from
    [GetResourcesPath argc argv], and makes at most one lock attempt, which
    is on the lock file of the configuration that was loaded. *)
Theorem ServerMain_one_load_one_lock (h : Host) (argc : Z) (argv : list string)
    (createLocalNode : CreateLocalNodeFunc) :
  let result := ServerMain h argc argv createLocalNode [] in
  List.filter is_load result.2 =
    [LoadFromPath (GetResourcesPath argc argv)
       (Eff.is_ok (host_LoadFromPath h (GetResourcesPath argc argv)))] /\
  (List.filter is_lock_attempt result.2 = [] \/
   exists config returned,
     host_LoadFromPath h (GetResourcesPath argc argv) = Ok config /\
     List.filter is_lock_attempt result.2 = [TryLock (lockFile config) returned]).
Proof.
  cbn zeta. unfold lockFile. run_main.
  destruct (host_LoadFromPath h (GetResourcesPath argc argv)) as [config|] eqn:Hload; cbn.
  2: { split; [reflexivity | now left]. }
  outcomes; (split; [reflexivity|]);
    first [ now left | right; exists config; eexists; split; reflexivity ].
Qed.

End server_more.

(** ** Write-once hooks: a destination that was set is final *)

Module extensions_more.
Import extensions.

(** X9: when set functions are offered to an unset destination through
    [SetOnce] one after the other, the first offer succeeds, every later offer
    throws an invalid-argument error, and the destination ends up holding the
    first function offered, which [Require] then returns. *)
Theorem SetOnce_first_offer_wins {F : Type} (first : F) (later : list F) :
  SetOnce (Some first) None = (Ok tt, Some first) /\
  Forall (fun f => forall dest, is_Some dest ->
                     (SetOnce (Some f) dest).1 = Throw catapult_invalid_argument) later /\
  foldl (fun dest f => (SetOnce (Some f) dest).2) None (first :: later) = Some first /\
  Require (foldl (fun dest f => (SetOnce (Some f) dest).2) None (first :: later)) = Ok first.
Proof.
  assert (Hkeep : forall fs : list F,
             foldl (fun dest f => (SetOnce (Some f) dest).2) (Some first) fs = Some first).
  { induction fs as [|f fs IH]; [reflexivity | exact IH]. }
  split; [reflexivity | split; [|split]].
  - apply Forall_forall. intros f _ dest [g ->]. reflexivity.
  - cbn. apply Hkeep.
  - cbn. now rewrite Hkeep.
Qed.

End extensions_more.

(** ** Dispatcher service: handlers in sequence, builders and registration *)

Module sync_more.
Import config sync.

Section Service.
Context `{Collaborators}.

Ltac run_handlers :=
  unfold CreateBlockChainSyncHandlers; cbn;
  unfold rollbackInfo_do_save, rollbackInfo_do_reset, rollbackInfo_do_increment,
    CreateSyncUndoBlockHandler, build_newTransactionsSink, create_directories, effect, now,
    Eff.modify, Eff.get, mbind, mret, eff_bind, eff_ret, Eff.bind, Eff.ret; cbn.

Lemma for_each_cons_ok {S A : Type} (body : A -> M S unit) (x : A) (rest : list A)
    (s s1 : S) :
  body x s = (Ok tt, s1) ->
  Eff.for_each body (x :: rest) s = Eff.for_each body rest s1.
Proof. intros Hbody. cbn. unfold Eff.bind. now rewrite Hbody. Qed.

Lemma UndoBlock_run (state : ServiceState) (blockElement : BlockElement)
    (observerState : ObserverState) (w : World) :
  UndoBlock (CreateBlockChainSyncHandlers state) blockElement observerState w =
    (Ok tt,
     set_effects (fun es => es ++ [RollbackBlock blockElement observerState])
       (set_effects (fun es => es ++ [log_rolling_back_block (Height (Block_ blockElement))])
          (set_rollbackInfo RollbackInfo_increment
             (set_effects (fun es => es ++ [rollbackInfo_increment]) w)))).
Proof. reflexivity. Qed.

Lemma UndoBlock_range_run (state : ServiceState) (observerState : ObserverState)
    (elements : list BlockElement) (w : World) :
  let undo := fun blockElement =>
                UndoBlock (CreateBlockChainSyncHandlers state) blockElement observerState in
  let result := Eff.for_each undo elements w in
  result.1 = Ok tt /\
  effects result.2 = effects w ++ undo_effects observerState elements /\
  ri_pending (rollbackInfo result.2) =
    (ri_pending (rollbackInfo w) + N.of_nat (length elements))%N /\
  ri_committed (rollbackInfo result.2) = ri_committed (rollbackInfo w) /\
  localScore result.2 = localScore w /\
  clockReads result.2 = clockReads w /\
  directories result.2 = directories w.
Proof.
  cbn zeta. revert w. induction elements as [|blockElement elements IH]; intros w.
  - cbn. rewrite app_nil_r, N.add_0_r. repeat split.
  - rewrite (for_each_cons_ok
               (fun blockElement =>
                  UndoBlock (CreateBlockChainSyncHandlers state) blockElement observerState)
               blockElement elements w _
               (UndoBlock_run state blockElement observerState w)).
    match goal with |- context [Eff.for_each _ elements ?w1] =>
      destruct (IH w1) as (Hok & Heffects & Hpending & Hcommitted & Hscore & Hclock & Hdirs)
    end.
    rewrite Hok, Heffects, Hpending, Hcommitted, Hscore, Hclock, Hdirs. cbn.
    repeat split.
    + now rewrite <- !app_assoc.
    + lia.
Qed.

(** X10: the difficulty check calls [rollbackInfo.reset()] on every
    invocation, also when it returns true: afterwards the pending count is
    zero, and the world it leaves does not depend on the blocks or the cache.
    Undos that are followed by a difficulty check are thereby discarded and
    never committed: after undoing any range of blocks and then checking
    difficulties, the effects are those of the undos followed by one reset,
    the pending count is zero and the committed records are those from before
    the undos. The check touches neither the local score nor the file
    system. *)
Theorem DifficultyChecker_always_resets (state : ServiceState) (blocks blocks' : list Block)
    (cache cache' : CatapultCache) (w : World) :
  let handlers := CreateBlockChainSyncHandlers state in
  let result := DifficultyChecker handlers blocks cache w in
  result.2 = (DifficultyChecker handlers blocks' cache' w).2 /\
  effects result.2 = effects w ++ [rollbackInfo_reset] /\
  ri_pending (rollbackInfo result.2) = 0%N /\
  ri_committed (rollbackInfo result.2) = ri_committed (rollbackInfo w) /\
  localScore result.2 = localScore w /\
  directories result.2 = directories w /\
  (forall observerState elements,
     let undone :=
       (Eff.for_each (fun blockElement => UndoBlock handlers blockElement observerState)
                     elements w).2 in
     let checked := (DifficultyChecker handlers blocks cache undone).2 in
     effects checked =
       effects w ++ undo_effects observerState elements ++ [rollbackInfo_reset] /\
     ri_pending (rollbackInfo checked) = 0%N /\
     ri_committed (rollbackInfo checked) = ri_committed (rollbackInfo w) /\
     localScore checked = localScore w).
Proof.
  cbn zeta. do 6 (split; [reflexivity|]).
  intros observerState elements.
  destruct (UndoBlock_range_run state observerState elements w)
    as (_ & Heffects & _ & Hcommitted & Hscore & _).
  cbn zeta in Heffects, Hcommitted, Hscore.
  run_handlers. repeat split; try assumption.
  rewrite app_assoc. f_equal. exact Heffects.
Qed.

(** X11: undoing the blocks of a range one by one through the UndoBlock
    handler performs, per block and in range order, one increment of the
    pending count followed by the rollback of that block; the pending count
    grows by the number of blocks, and the score, the clock, the directories
    and the rollback records stay as they were. An empty range does nothing. *)
Theorem UndoBlock_over_range (state : ServiceState) (observerState : ObserverState)
    (elements : list BlockElement) (w : World) :
  let undo := fun blockElement =>
                UndoBlock (CreateBlockChainSyncHandlers state) blockElement observerState in
  let result := Eff.for_each undo elements w in
  result.1 = Ok tt /\
  effects result.2 = effects w ++ undo_effects observerState elements /\
  ri_pending (rollbackInfo result.2) =
    (ri_pending (rollbackInfo w) + N.of_nat (length elements))%N /\
  ri_committed (rollbackInfo result.2) = ri_committed (rollbackInfo w) /\
  localScore result.2 = localScore w /\
  clockReads result.2 = clockReads w /\
  directories result.2 = directories w.
Proof. apply UndoBlock_range_run. Qed.

Lemma StateChange_run (state : ServiceState) (changeInfo : StateChangeInfo) (w : World) :
  exists w1,
    StateChange (CreateBlockChainSyncHandlers state) changeInfo w = (Ok tt, w1) /\
    effects w1 =
      effects w ++ [localScore_add (ScoreDelta changeInfo);
                    notifyScoreChange (localScore w + ScoreDelta changeInfo);
                    notifyStateChange changeInfo; rollbackInfo_save] /\
    localScore w1 = localScore w + ScoreDelta changeInfo /\
    directories w1 = directories w /\
    ri_pending (rollbackInfo w1) = 0%N.
Proof.
  eexists. split; [reflexivity|]. cbn. rewrite <- !app_assoc. repeat split.
Qed.

Lemma StateChange_sequence_effects (state : ServiceState) (changeInfos : list StateChangeInfo) :
  forall w,
    let result := Eff.for_each (StateChange (CreateBlockChainSyncHandlers state)) changeInfos w in
    result.1 = Ok tt /\
    localScore result.2 = localScore w + sum_ScoreDelta changeInfos /\
    directories result.2 = directories w /\
    exists added,
      effects result.2 = effects w ++ added /\
      filter (fun e => is_subscriber_call e = true) added =
        running_notifications (localScore w) changeInfos.
Proof.
  cbn zeta. induction changeInfos as [|changeInfo changeInfos IH]; intros w.
  - cbn. repeat split; [symmetry; apply Z.add_0_r|]. exists []. now rewrite app_nil_r.
  - destruct (StateChange_run state changeInfo w) as (w1 & Hrun & Heffects & Hscore & Hdirs & _).
    rewrite (for_each_cons_ok _ changeInfo changeInfos w w1 Hrun).
    destruct (IH w1) as (Hok & Hscore' & Hdirs' & added & Hadded & Hfilter).
    rewrite Hok, Hscore', Hdirs', Hadded, Heffects, Hscore, Hdirs. cbn.
    repeat split; [symmetry; apply Z.add_assoc|].
    eexists. split; [now rewrite <- app_assoc|].
    rewrite filter_app, Hfilter, Hscore. reflexivity.
Qed.

(** X12: a sequence of state changes accumulates: the local score ends at
    its start value plus the sum of the deltas, and the subscriber receives,
    per change and in order, the running total of the score followed by that
    change; nothing else reaches the subscriber and no directory is
    touched. *)
Theorem StateChange_sequence (state : ServiceState) (changeInfos : list StateChangeInfo)
    (w : World) :
  let result := Eff.for_each (StateChange (CreateBlockChainSyncHandlers state)) changeInfos w in
  result.1 = Ok tt /\
  localScore result.2 = localScore w + sum_ScoreDelta changeInfos /\
  filter (fun e => is_subscriber_call e = true) (new_effects w result.2) =
    running_notifications (localScore w) changeInfos /\
  directories result.2 = directories w.
Proof.
  destruct (StateChange_sequence_effects state changeInfos w)
    as (Hok & Hscore & Hdirs & added & Hadded & Hfilter).
  cbn zeta. repeat split; try assumption.
  unfold new_effects. rewrite Hadded, drop_app_length. exact Hfilter.
Qed.

(** Splits on the outcome of every [create_directories], the earliest first. *)
Ltac creation_outcomes :=
  repeat match goal with
         | |- context [fs_create_directories ?p ?disk] =>
             lazymatch disk with
             | context [fs_create_directories] => fail
             | _ =>
                 let E := fresh "Hcreate" in
                 destruct (fs_create_directories p disk) as [[[]|?] ?] eqn:E; cbn
             end
         end.

(** X13: whatever consumers were added to a block dispatcher builder, every
    dispatcher [build] returns keeps them all, in the order they were added,
    and appends the chain check, the stateless validation on the given
    validator pool, the chain sync and the new-block announce; the only
    consumer it can put in front is the audit consumer. The dispatcher is
    named "block dispatcher". [build] returns a dispatcher unless the audit
    directory has to be created and cannot be. *)
Theorem block_build_keeps_and_appends (b : BlockDispatcherBuilder) (pValidatorPool : string)
    (w : World) :
  let state := block_m_state b in
  let options := CreateBlockConsumerDispatcherOptions (Node (state_config state)) in
  DispatcherName options = "block dispatcher" /\
  (audit_directory_created state options w ->
   exists d, (block_build b pValidatorPool w).1 = Ok d) /\
  (forall d,
    (block_build b pValidatorPool w).1 = Ok d ->
    dispatcher_options d = options /\
    dispatcher_consumers d =
      spec_audit_prefix state options (clockReads w)
      ++ DisruptorConsumersFromBlockConsumers (block_m_consumers b)
      ++ block_build_suffix state pValidatorPool).
Proof.
  cbn zeta. split; [reflexivity|].
  unfold audit_directory_created, block_build, CreateConsumerDispatcher, spec_audit_prefix,
    DisruptorConsumersFromBlockConsumers, block_build_suffix, block_m_nodeConfig.
  run_handlers.
  destruct (ShouldAuditDispatcherInputs _); cbn; creation_outcomes; split;
    try (intros [?|?]; try discriminate; eexists; reflexivity);
    intros ? [= <-]; cbn; (split; [reflexivity|]);
    rewrite !map_app, <- !app_assoc; reflexivity.
Qed.

(** X14: audit directories do not collide: the directory of the block
    dispatcher differs from that of the transaction dispatcher whatever the
    data directory and the clock readings, and for one dispatcher two clock
    readings give the same directory only when they are equal. *)
Theorem audit_directories_distinct (config : LocalNodeConfiguration) (t1 t2 : Timestamp) :
  let block := CreateBlockConsumerDispatcherOptions (Node config) in
  let transaction := CreateTransactionConsumerDispatcherOptions (Node config) in
  fs.generic_string (auditPath_of config block t1) <>
    fs.generic_string (auditPath_of config transaction t2) /\
  (forall options,
     fs.generic_string (auditPath_of config options t1) =
       fs.generic_string (auditPath_of config options t2) ->
     unwrap t1 = unwrap t2).
Proof.
  cbn zeta. split.
  - rewrite !sync_facts.auditPath_of_string by reflexivity.
    rewrite !fs_facts.append_assoc. intros Heq.
    destruct (_ || _); apply String.app_inj in Heq; discriminate Heq.
  - intros options. unfold auditPath_of, fs.generic_string.
    destruct (fs_facts.to_string_relative (unwrap t1)) as [He1 Hb1].
    destruct (fs_facts.to_string_relative (unwrap t2)) as [He2 Hb2].
    rewrite (fs_facts.append_relative _ (to_string (unwrap t1)) He1 Hb1),
      (fs_facts.append_relative _ (to_string (unwrap t2)) He2 Hb2).
    intros Heq. destruct (_ || _); repeat apply String.app_inj in Heq;
      now apply pretty_N_inj in Heq.
Qed.

(** X15: [CreateConsumerDispatcher] never removes a directory, whether it
    returns or throws. It returns a dispatcher exactly when the audit
    directory need not be created or [create_directories] returns on it.
    Every dispatcher it returns has the given options, the status-flush and
    reclaim-memory inspector and the consumers it was given, unchanged and in
    order, behind at most one audit consumer. The local score and the
    rollback info are left alone. *)
Theorem CreateConsumerDispatcher_directories (state : ServiceState)
    (options : ConsumerDispatcherOptions) (disruptorConsumers : list DisruptorConsumer)
    (w : World) :
  let result := CreateConsumerDispatcher state options disruptorConsumers w in
  (forall q, fs_is_directory q (directories w) = true ->
             fs_is_directory q (directories result.2) = true) /\
  ((exists d, result.1 = Ok d) <-> audit_directory_created state options w) /\
  (forall d, result.1 = Ok d ->
     dispatcher_options d = options /\
     dispatcher_consumers d =
       spec_audit_prefix state options (clockReads w) ++ disruptorConsumers /\
     dispatcher_inspector d = [statusSubscriber_flush; reclaimMemoryInspector]) /\
  localScore result.2 = localScore w /\
  rollbackInfo result.2 = rollbackInfo w.
Proof.
  cbn zeta. unfold CreateConsumerDispatcher, spec_audit_prefix, audit_directory_created.
  run_handlers.
  destruct (ShouldAuditDispatcherInputs _); cbn.
  - destruct (fs_create_directories _ _) as [[[]|what] disk] eqn:Hcreate; cbn;
      (split; [intros q; eapply fs_create_directories_keeps, Hcreate|]);
      (split; [split|]).
    + intros _. now right.
    + intros _. eexists. reflexivity.
    + split; [|split; reflexivity]. now intros ? [= <-].
    + intros [? [=]].
    + intros [[=]|[=]].
    + split; [|split; reflexivity]. intros ? [=].
  - split; [easy|]. split; [split|].
    + intros _. now left.
    + intros _. eexists. reflexivity.
    + split; [|split; reflexivity]. now intros ? [= <-].
Qed.

Ltac run_registration :=
  unfold registerServices, RegisterTransactionDispatcherService,
    RegisterBlockDispatcherService, CreateAndRegisterRollbackService,
    CreateAndRegisterUtUpdater, locator_registerRootedService, locator_registerService,
    in_world, transaction_build, block_build, CreateConsumerDispatcher;
  run_handlers.

Ltac open_switches state :=
  destruct state as [[? [? ? ? ? ? [] [] ? ? ?] ? ?] ?].

Ltac lookup_registered :=
  repeat (rewrite lookup_insert_ne by discriminate); rewrite lookup_insert_eq.

(** X16: the transaction dispatcher is named "transaction dispatcher".
    Whenever [registerServices] returns, the transaction dispatcher it
    registered has as consumers, in order, the hash calculator, the hash
    check on [ShortLivedCacheTransactionDuration], the address extraction
    exactly when precomputing is enabled, the parallel stateless validation
    and the new-transactions consumer, behind an audit consumer when auditing
    is enabled; its audit directory is stamped with the second clock reading,
    the first having gone to the block dispatcher; and the batch range
    dispatcher registered as "dispatcher.transaction.batch" wraps this same
    dispatcher. [registerServices] returns whenever auditing is disabled. *)
Theorem transaction_dispatcher_consumer_order (state : ServiceState) (b : Boot) :
  let result := registerServices state b in
  let options := CreateTransactionConsumerDispatcherOptions (Node (state_config state)) in
  DispatcherName options = "transaction dispatcher" /\
  (ShouldAuditDispatcherInputs (Node (state_config state)) = false -> result.1 = Ok tt) /\
  (result.1 = Ok tt ->
   exists d,
    locator result.2 !! "dispatcher.transaction" =
      Some {| rooted := false; service := DispatcherObject d |} /\
    locator result.2 !! "dispatcher.transaction.batch" =
      Some {| rooted := true; service := TransactionBatchRangeDispatcher d |} /\
    dispatcher_options d = options /\
    dispatcher_consumers d =
      spec_audit_prefix state options (S (clockReads (world b)))
      ++ spec_transaction_pipeline state).
Proof.
  cbn zeta. split; [reflexivity|].
  open_switches state; run_registration; creation_outcomes;
    (split; [first [discriminate | reflexivity]|]);
    first [discriminate
          | intros _; eexists;
            (split; [lookup_registered; reflexivity
                    | split; [lookup_registered; reflexivity | repeat split]])].
Qed.

(** X17: [registerServices] registers the UT updater and the rollback info
    as rooted services, and the notification publisher, rooted, exactly when
    precomputing of transaction addresses is enabled, whether or not it goes
    on to return; whenever it returns, the two dispatchers are registered as
    plain services and the batch range dispatcher as a rooted one; no other
    name of the locator is ever touched. *)
Theorem registerServices_locator (state : ServiceState) (b : Boot) :
  let result := registerServices state b in
  let after := locator result.2 in
  let precompute := ShouldPrecomputeTransactionAddresses (Node (state_config state)) in
  after !! "dispatcher.utUpdater" = Some {| rooted := true; service := UtUpdaterObject |} /\
  after !! "rollbacks" = Some {| rooted := true; service := RollbackInfoObject |} /\
  (result.1 = Ok tt ->
   (exists d, after !! "dispatcher.block" =
                Some {| rooted := false; service := DispatcherObject d |}) /\
   (exists d, after !! "dispatcher.transaction" =
                Some {| rooted := false; service := DispatcherObject d |}) /\
   (exists d, after !! "dispatcher.transaction.batch" =
                Some {| rooted := true; service := TransactionBatchRangeDispatcher d |})) /\
  after !! "dispatcher.notificationPublisher" =
    (if precompute then Some {| rooted := true; service := NotificationPublisherObject |}
     else locator b !! "dispatcher.notificationPublisher") /\
  (forall name,
     name ∉ "dispatcher.notificationPublisher" :: registered_names ->
     after !! name = locator b !! name).
Proof.
  cbn zeta. open_switches state; run_registration; creation_outcomes;
    (split; [now lookup_registered|]); (split; [now lookup_registered|]);
    (split; [first [discriminate
                   | intros _; (split; [eexists; now lookup_registered|]);
                     (split; [eexists; now lookup_registered|]);
                     eexists; now lookup_registered]|]);
    (split; [first [now lookup_registered
                   | now repeat (rewrite lookup_insert_ne by discriminate)]|]);
    intros name Hname; unfold registered_names in Hname;
    rewrite !not_elem_of_cons in Hname; destruct_and?;
    now repeat (rewrite lookup_insert_ne by congruence).
Qed.


End Service.

(** *** The further properties on sample inputs *)

Lemma audit_directories_distinct_witness :
  unwrap (MkTimestamp 1700000000000) = unwrap (MkTimestamp 1700000000000).
Proof.
  apply (audit_directories_distinct server.sample_config
           (MkTimestamp 1700000000000) (MkTimestamp 1700000000000))
    with (options := CreateBlockConsumerDispatcherOptions (Node server.sample_config)).
  reflexivity.
Defined.

Lemma block_build_keeps_and_appends_witness :
  exists d,
    (block_build (block_addHashConsumers (BlockDispatcherBuilder_new sample_state))
       "validator" sample_world).1 = Ok d /\
    dispatcher_consumers d =
      [AuditConsumer "../data/audit/block dispatcher/1700000000000";
       FromBlockConsumer BlockHashCalculatorConsumer;
       FromBlockConsumer
         (BlockHashCheckConsumer
            (CreateHashCheckOptions (FromMilliseconds 100) (Node server.sample_config)));
       FromBlockConsumer (BlockChainCheckConsumer 30 (FromMilliseconds 10000));
       FromBlockConsumer
         (BlockStatelessValidationConsumer (CreateParallelValidationPolicy "validator"));
       BlockChainSyncConsumer 40 (CreateBlockChainSyncHandlers sample_state);
       NewBlockConsumer Local].
Proof.
  destruct (@block_build_keeps_and_appends sample_collaborators
              (block_addHashConsumers (BlockDispatcherBuilder_new sample_state))
              "validator" sample_world) as (_ & Hreturns & Hkeeps).
  destruct Hreturns as [d Hd]; [right; vm_compute; reflexivity|].
  exists d. split; [exact Hd|].
  destruct (Hkeeps d Hd) as [_ Hconsumers]. rewrite Hconsumers. vm_compute. reflexivity.
Defined.

Lemma CreateConsumerDispatcher_directories_witness :
  let options := CreateTransactionConsumerDispatcherOptions (Node server.sample_config) in
  (exists d, (@CreateConsumerDispatcher sample_collaborators sample_state options
                [NewTransactionsConsumer build_newTransactionsSink] sample_world).1 = Ok d) /\
  ~ (exists d, (@CreateConsumerDispatcher sample_collaborators sample_state options
                  [NewTransactionsConsumer build_newTransactionsSink]
                  sample_world_blocked).1 = Ok d).
Proof.
  intros options. split.
  - apply (@CreateConsumerDispatcher_directories sample_collaborators sample_state options
             [NewTransactionsConsumer build_newTransactionsSink] sample_world).
    right. vm_compute. reflexivity.
  - intros Hreturns.
    apply (@CreateConsumerDispatcher_directories sample_collaborators sample_state options
             [NewTransactionsConsumer build_newTransactionsSink] sample_world_blocked)
      in Hreturns.
    destruct Hreturns as [Hdisabled | Hcreated]; [discriminate Hdisabled|].
    vm_compute in Hcreated. discriminate Hcreated.
Defined.

Lemma transaction_dispatcher_consumer_order_witness :
  exists d,
    locator (registerServices sample_state sample_boot).2 !! "dispatcher.transaction" =
      Some {| rooted := false; service := DispatcherObject d |} /\
    dispatcher_consumers d =
      [AuditConsumer "../data/audit/transaction dispatcher/1700000000001";
       FromTransactionConsumer TransactionHashCalculatorConsumer;
       FromTransactionConsumer
         (TransactionHashCheckConsumer
            (CreateHashCheckOptions (FromMilliseconds 200) (Node server.sample_config)));
       FromTransactionConsumer
         (TransactionStatelessValidationConsumer (CreateParallelValidationPolicy "validator"));
       NewTransactionsConsumer build_newTransactionsSink].
Proof.
  destruct (@transaction_dispatcher_consumer_order sample_collaborators sample_state
              sample_boot) as (_ & _ & Hbuilt).
  destruct Hbuilt as (d & Hlookup & _ & _ & Hconsumers); [vm_compute; reflexivity|].
  exists d. split; [exact Hlookup|]. rewrite Hconsumers. vm_compute. reflexivity.
Defined.

Lemma registerServices_locator_witness :
  locator (registerServices sample_state sample_boot).2 !! "dispatcher.api" = None /\
  (exists d, locator (registerServices sample_state sample_boot).2 !! "dispatcher.block" =
               Some {| rooted := false; service := DispatcherObject d |}).
Proof.
  destruct (@registerServices_locator sample_collaborators sample_state sample_boot)
    as (_ & _ & Hreturned & _ & Hother).
  split.
  - rewrite (Hother "dispatcher.api"); [reflexivity|].
    unfold registered_names. rewrite !not_elem_of_cons. repeat split; try discriminate.
    apply not_elem_of_nil.
  - apply Hreturned. vm_compute. reflexivity.
Defined.


End sync_more.
